(** * Location Insights pipeline ([main.py])

    A shallow embedding of the derived-data steps of the dashboard:
    [calc_meters], [show_events_list], the search window and the radius
    request of [show_location_insights], together with the Python
    semantics they rely on (subscripting, [in], truthiness, iteration,
    number formatting, calendar arithmetic). *)

From Stdlib Require Import ZArith String Ascii List Bool Lia.
From Stdlib Require Import Floats.PrimFloat Floats.SpecFloat Floats.FloatOps.
From stdpp Require Import base option list gmap strings.

Set Warnings "-register-all,-inexact-float".
Open Scope Z_scope.

(** ** Python values and exceptions *)

(** The exceptions the modelled code can raise. [ParserError] is
    [dateutil]'s, [UnknownTimeZoneError] is [pytz]'s. *)
Inductive exn : Type :=
  | KeyError (key : string)
  | TypeError
  | ValueError
  | AttributeError
  | OverflowError
  | ParserError
  | UnknownTimeZoneError.

(** A computation that returns a value or raises. *)
Inductive result (A : Type) : Type :=
  | Ok (a : A)
  | Raise (e : exn).
Arguments Ok {A} a.
Arguments Raise {A} e.

Definition bind {A B : Type} (m : result A) (k : A -> result B) : result B :=
  match m with
  | Ok a => k a
  | Raise e => Raise e
  end.

Notation "'let*' x ':=' m 'in' k" := (bind m (fun x => k))
  (at level 10, x name, m at level 100, k at level 200).
Notation "'let*' ' p ':=' m 'in' k" :=
  (bind m (fun x => match x with p => k end))
  (at level 10, p strict pattern, m at level 100, k at level 200).

Definition raises {A : Type} (m : result A) : Prop := exists e, m = Raise e.

(** Decoded JSON as Python sees it: [None], [bool], [int], [float], [str],
    [list] and [dict] with string keys. *)
Inductive json : Type :=
  | JNull
  | JBool (b : bool)
  | JInt (z : Z)
  | JFloat (f : float)
  | JStr (s : string)
  | JArr (l : list json)
  | JObj (m : gmap string json).

(** [v[key]] for a string [key]: a lookup in a dict, [KeyError] when the
    key is absent, [TypeError] on every other kind of value. *)
Definition getitem (v : json) (key : string) : result json :=
  match v with
  | JObj m =>
      match m !! key with
      | Some x => Ok x
      | None => Raise (KeyError key)
      end
  | _ => Raise TypeError
  end.

(** [v == s] for a string literal [s]. *)
Definition eq_str (v : json) (s : string) : bool :=
  match v with
  | JStr t => String.eqb t s
  | _ => false
  end.

(** [v is None]. *)
Definition is_none (v : json) : bool :=
  match v with
  | JNull => true
  | _ => false
  end.

(** [needle in hay] on [str]. *)
Fixpoint substring_of (needle hay : string) : bool :=
  String.prefix needle hay ||
  match hay with
  | EmptyString => false
  | String _ rest => substring_of needle rest
  end.

(** [key in v] for a string [key]: key membership on a dict, element
    membership on a list, substring test on a str, [TypeError] otherwise. *)
Definition contains (key : string) (v : json) : result bool :=
  match v with
  | JObj m => Ok (bool_decide (is_Some (m !! key)))
  | JArr l => Ok (existsb (fun x => eq_str x key) l)
  | JStr s => Ok (substring_of key s)
  | _ => Raise TypeError
  end.

(** Truth value of [v] in a condition. *)
Definition truthy (v : json) : bool :=
  match v with
  | JNull => false
  | JBool b => b
  | JInt z => negb (z =? 0)
  | JFloat f => negb (PrimFloat.eqb f 0%float)
  | JStr s => negb (String.eqb s "")
  | JArr l => match l with [] => false | _ => true end
  | JObj m => negb (bool_decide (m = ∅))
  end.

Fixpoint chars (s : string) : list json :=
  match s with
  | EmptyString => []
  | String c rest => JStr (String c EmptyString) :: chars rest
  end.

(** The elements [for x in v] walks through: the items of a list, the keys
    of a dict, the characters of a str; other values are not iterable.
    (A dict yields its keys in insertion order; every consumer below raises
    on the first key whatever it is, so the order kept here is immaterial.) *)
Definition iter (v : json) : result (list json) :=
  match v with
  | JArr l => Ok l
  | JObj m => Ok (JStr <$> (map_to_list m).*1)
  | JStr s => Ok (chars s)
  | _ => Raise TypeError
  end.

(** ** Calendar arithmetic of [datetime] *)

Definition MAXORDINAL : Z := 3652059.
Definition DI400Y : Z := 146097.
Definition DI100Y : Z := 36524.
Definition DI4Y : Z := 1461.

Definition DAYS_IN_MONTH : list Z :=
  [-1; 31; 28; 31; 30; 31; 30; 31; 31; 30; 31; 30; 31].
Definition DAYS_BEFORE_MONTH : list Z :=
  [-1; 0; 31; 59; 90; 120; 151; 181; 212; 243; 273; 304; 334].

Definition table (t : list Z) (i : Z) : Z := nth (Z.to_nat i) t 0.

Definition is_leap (year : Z) : bool :=
  (year mod 4 =? 0) && (negb (year mod 100 =? 0) || (year mod 400 =? 0)).

Definition days_before_year (year : Z) : Z :=
  let y := year - 1 in y * 365 + y / 4 - y / 100 + y / 400.

Definition days_in_month (year month : Z) : Z :=
  if (month =? 2) && is_leap year then 29 else table DAYS_IN_MONTH month.

Definition days_before_month (year month : Z) : Z :=
  table DAYS_BEFORE_MONTH month
  + (if (2 <? month) && is_leap year then 1 else 0).

(** A calendar date ([datetime.date]). *)
Record date : Type := mkdate { year : Z; month : Z; day : Z }.

Definition valid_date (d : date) : Prop :=
  1 <= year d <= 9999 /\ 1 <= month d <= 12 /\
  1 <= day d <= days_in_month (year d) (month d).

(** [_ymd2ord]: 0001-01-01 is day 1. *)
Definition ymd2ord (y m d : Z) : Z :=
  days_before_year y + days_before_month y m + d.

Definition toordinal (d : date) : Z := ymd2ord (year d) (month d) (day d).

(** The tail of [_ord2ymd]: month and day of the [n]-th day (from 0) of a
    year, from the estimate [(n + 50) >> 5] corrected downwards. *)
Definition month_day (leapyear : bool) (n : Z) : Z * Z :=
  let mo := Z.shiftr (n + 50) 5 in
  let preceding :=
    table DAYS_BEFORE_MONTH mo + (if (2 <? mo) && leapyear then 1 else 0) in
  if n <? preceding then
    let mo' := mo - 1 in
    let preceding' :=
      preceding
      - (table DAYS_IN_MONTH mo' + (if (mo' =? 2) && leapyear then 1 else 0)) in
    (mo', n - preceding' + 1)
  else (mo, n - preceding + 1).

(** The postcondition of [month_day], as a test: a month, a day of that
    month, and as many days before them in the year as [n]. *)
Definition month_day_ok (leapyear : bool) (n : Z) : bool :=
  let '(mo, d) := month_day leapyear n in
  (1 <=? mo) && (mo <=? 12) && (1 <=? d)
  && (d <=? table DAYS_IN_MONTH mo + (if (mo =? 2) && leapyear then 1 else 0))
  && (table DAYS_BEFORE_MONTH mo + (if (2 <? mo) && leapyear then 1 else 0) + d
      =? n + 1).

(** [_ord2ymd], the inverse of [_ymd2ord]. *)
Definition ord2ymd (ordinal : Z) : date :=
  let n := ordinal - 1 in
  let n400 := n / DI400Y in
  let n := n mod DI400Y in
  let n100 := n / DI100Y in
  let n := n mod DI100Y in
  let n4 := n / DI4Y in
  let n := n mod DI4Y in
  let n1 := n / 365 in
  let n := n mod 365 in
  let y := n400 * 400 + 1 + n100 * 100 + n4 * 4 + n1 in
  if (n1 =? 4) || (n100 =? 4) then mkdate (y - 1) 12 31
  else
    let leapyear := (n1 =? 3) && (negb (n4 =? 24) || (n100 =? 3)) in
    let '(mo, d) := month_day leapyear n in
    mkdate y mo d.

(** [d + datetime.timedelta(days=k)]. *)
Definition date_add_days (d : date) (k : Z) : result date :=
  let o := toordinal d + k in
  if (0 <? o) && (o <=? MAXORDINAL) then Ok (ord2ymd o) else Raise OverflowError.

(** A point in time: seconds elapsed since 0001-01-01T00:00:00 UTC.  An
    aware [datetime] denotes one, whatever zone it is expressed in. *)
Definition instant : Type := Z.

(** The instant of the UTC wall-clock reading [y-m-d H:M:S]. *)
Definition utc_datetime (y m d H M S : Z) : instant :=
  (ymd2ord y m d - 1) * 86400 + H * 3600 + M * 60 + S.

(** A time zone ([tzinfo]): its offset from UTC, in seconds, at an instant. *)
Definition tzinfo : Type := instant -> Z.

(** The wall-clock fields [strftime] reads. *)
Record datetime : Type :=
  mkdatetime { dt_date : date; dt_hour : Z; dt_minute : Z }.

(** [t.astimezone(tz)]: the wall clock of zone [tz] at instant [t];
    [OverflowError] when it leaves the years 1..9999. *)
Definition astimezone (t : instant) (tz : tzinfo) : result datetime :=
  let local := t + tz t in
  let o := local / 86400 + 1 in
  if (0 <? o) && (o <=? MAXORDINAL)
  then Ok (mkdatetime (ord2ymd o) (local mod 86400 / 3600) (local mod 3600 / 60))
  else Raise OverflowError.

(** The wall clock [dt] shows the minute the local time [local] (seconds
    since 0001-01-01T00:00:00 on the zone's own clock) falls in. *)
Definition wall_clock (local : Z) (dt : datetime) : Prop :=
  let d := dt_date dt in
  valid_date d /\ 0 <= dt_hour dt < 24 /\ 0 <= dt_minute dt < 60 /\
  utc_datetime (year d) (month d) (day d) (dt_hour dt) (dt_minute dt) 0
  <= local
  < utc_datetime (year d) (month d) (day d) (dt_hour dt) (dt_minute dt) 0 + 60.

(** ** Rendering numbers and dates *)

Fixpoint uint_digits (u : Decimal.uint) : list ascii :=
  match u with
  | Decimal.Nil => []
  | Decimal.D0 u => "0"%char :: uint_digits u
  | Decimal.D1 u => "1"%char :: uint_digits u
  | Decimal.D2 u => "2"%char :: uint_digits u
  | Decimal.D3 u => "3"%char :: uint_digits u
  | Decimal.D4 u => "4"%char :: uint_digits u
  | Decimal.D5 u => "5"%char :: uint_digits u
  | Decimal.D6 u => "6"%char :: uint_digits u
  | Decimal.D7 u => "7"%char :: uint_digits u
  | Decimal.D8 u => "8"%char :: uint_digits u
  | Decimal.D9 u => "9"%char :: uint_digits u
  end.

(** Decimal digits of a natural number, most significant first. *)
Definition digits (n : Z) : list ascii := uint_digits (N.to_uint (Z.to_N n)).

(** Left-pads with zeros to [width] characters. *)
Definition zfill (width : nat) (ds : list ascii) : list ascii :=
  repeat "0"%char (width - length ds) ++ ds.

Definition MONTH_ABBR : list string :=
  [""; "Jan"; "Feb"; "Mar"; "Apr"; "May"; "Jun";
   "Jul"; "Aug"; "Sep"; "Oct"; "Nov"; "Dec"]%string.

(** [dt.strftime("%d-%b-%Y %H:%M")] in the C locale, the year written with
    four digits. *)
Definition strftime_dby_HM (dt : datetime) : string :=
  let d := dt_date dt in
  (string_of_list_ascii (zfill 2 (digits (day d))) ++ "-"
   ++ nth (Z.to_nat (month d)) MONTH_ABBR "" ++ "-"
   ++ string_of_list_ascii (zfill 4 (digits (year d))) ++ " "
   ++ string_of_list_ascii (zfill 2 (digits (dt_hour dt))) ++ ":"
   ++ string_of_list_ascii (zfill 2 (digits (dt_minute dt))))%string.

(** Nearest integer to [m * 2^e], ties to the even neighbour. *)
Definition round_half_even (m : positive) (e : Z) : Z :=
  if 0 <=? e then Z.pos m * 2 ^ e
  else
    let d := 2 ^ (- e) in
    let q := Z.pos m / d in
    let r := Z.pos m mod d in
    match 2 * r ?= d with
    | Lt => q
    | Gt => q + 1
    | Eq => if Z.even q then q else q + 1
    end.

(** Inserts the thousands separator; [ds] holds the digits least
    significant first and [k] counts those already in the current group. *)
Fixpoint group3 (ds : list ascii) (k : nat) : list ascii :=
  match ds with
  | [] => []
  | d :: ds' =>
      match k with
      | 3%nat => ","%char :: d :: group3 ds' 1
      | _ => d :: group3 ds' (S k)
      end
  end.

Definition group_thousands (ds : list ascii) : list ascii :=
  rev (group3 (rev ds) 0).

Definition sign_prefix (s : bool) : string := if s then "-"%string else ""%string.

(** [format(x, ",.0f")] for a float [x], given by its IEEE-754 decoding:
    the exact binary value rounded to an integer, ties to even. *)
Definition float_comma_0f (x : spec_float) : string :=
  match x with
  | S754_nan => "nan"
  | S754_infinity s => sign_prefix s ++ "inf"
  | S754_zero s => sign_prefix s ++ "0"
  | S754_finite s m e =>
      sign_prefix s
      ++ string_of_list_ascii (group_thousands (digits (round_half_even m e)))
  end%string.

(** [float(z)] for an int: nearest double, [OverflowError] past the range. *)
Definition float_of_int (z : Z) : result spec_float :=
  match binary_normalize 53 1024 z 0 false with
  | S754_infinity _ => Raise OverflowError
  | x => Ok x
  end.

(** [format(v, ",.0f")]: floats, ints and bools are formatted, a str has no
    such format code and the other types accept no format string. *)
Definition format_comma_0f (v : json) : result string :=
  match v with
  | JFloat f => Ok (float_comma_0f (Prim2SF f))
  | JInt z => let* x := float_of_int z in Ok (float_comma_0f x)
  | JBool b => let* x := float_of_int (if b then 1 else 0) in Ok (float_comma_0f x)
  | JStr _ => Raise ValueError
  | _ => Raise TypeError
  end.

(** The f-string [f"${v:,.0f}"]. *)
Definition dollars (v : json) : result string :=
  let* s := format_comma_0f v in Ok ("$" ++ s)%string.

(** ** Unit normalizer *)

(** [calc_meters(value, unit)]. *)
Definition calc_meters (value : float) (unit : string) : float :=
  if String.eqb unit "mi" then (value * 1609)%float
  else if String.eqb unit "ft" then (value * 0.3048)%float
  else if String.eqb unit "km" then (value * 1000)%float
  else value.

(** ** Event formatter *)

(** The keys [show_events_list] reads from a record by plain subscripting. *)
Definition subscripted_keys : list string :=
  ["entities"; "title"; "phq_attendance"; "category"; "start"; "end";
   "timezone"].

(** One row of the events table; the comment gives the column name. *)
Record EventRow : Type := mkrow {
  Event_Title : json;                          (* "Event Title" *)
  PHQ_Attendance : json;                       (* "PHQ Attendance" *)
  Category : json;                             (* "Category" *)
  Start_Date : string;                         (* "Start Date (local tz)" *)
  End_Date : string;                           (* "End Date (local tz)" *)
  Predicted_End_Date : string;                 (* "Predicted End Date (local tz)" *)
  Venue_Name : json;                           (* "Venue Name" *)
  Venue_Address : json;                        (* "Venue Address" *)
  Placekey : json;                             (* "Placekey" *)
  Predicted_Event_Spend : string;              (* "Predicted Event Spend" *)
  Predicted_Event_Spend_Hospitality : string;  (* "Predicted Event Spend (Hospitality)" *)
}.

(** [a and b] in a condition: [b] is evaluated only when [a] holds. *)
Definition and_then (a b : result bool) : result bool :=
  let* x := a in if x then b else Ok false.

(** [t if c else e]: the condition first, then one branch. *)
Definition if_else {A : Type} (t : result A) (c : result bool) (e : result A)
  : result A :=
  let* x := c in if x then t else e.

(** [next(filter(lambda entity: entity["type"] == "venue", entities), None)]:
    the entities are inspected in order up to the first match. *)
Fixpoint first_venue (entities : list json) : result json :=
  match entities with
  | [] => Ok JNull
  | entity :: rest =>
      let* ty := getitem entity "type" in
      if eq_str ty "venue" then Ok entity else first_venue rest
  end.

(** The third-party functions the formatter calls:
    [dateutil.parser.parse] on a str, as the instant the parsed [datetime]
    denotes, and [pytz.timezone] on a zone name. *)
Class Libraries : Type := {
  parse_date : string -> result instant;
  pytz_timezone : string -> result tzinfo;
}.

(** An entity of type ["venue"], and an entity of another type. *)
Definition is_venue (entity : json) : Prop :=
  getitem entity "type" = Ok (JStr "venue").

Definition other_entity (entity : json) : Prop :=
  exists ty, getitem entity "type" = Ok ty /\ ty <> JStr "venue".

(** The venue columns of [row] against the entities [ents] of its record:
    name and address of the first venue, empty strings without one. *)
Definition venue_columns (ents : list json) (row : EventRow) : Prop :=
  (forall pre v post,
     ents = pre ++ v :: post -> Forall other_entity pre -> is_venue v ->
     getitem v "name" = Ok (Venue_Name row) /\
     getitem v "formatted_address" = Ok (Venue_Address row)) /\
  (Forall other_entity ents ->
   Venue_Name row = JStr "" /\ Venue_Address row = JStr "").

Section Formatter.

Context {libs : Libraries}.

Definition py_parse_date (v : json) : result instant :=
  match v with
  | JStr s => parse_date s
  | _ => Raise TypeError
  end.

Definition py_timezone (v : json) : result tzinfo :=
  match v with
  | JStr s => pytz_timezone s
  | JNull => Raise UnknownTimeZoneError
  | _ => Raise AttributeError
  end.

(** [parse_date(event[key]).astimezone(pytz.timezone(event["timezone"]))
    .strftime("%d-%b-%Y %H:%M")]. *)
Definition local_time (event : json) (key : string) : result string :=
  let* s := getitem event key in
  let* t := py_parse_date s in
  let* z := getitem event "timezone" in
  let* tz := py_timezone z in
  let* dt := astimezone t tz in
  Ok (strftime_dby_HM dt).

(** ["PHQ Attendance"]:
    [event["phq_attendance"] if event["phq_attendance"] else 0]. *)
Definition attendance_cell (event : json) : result json :=
  if_else (getitem event "phq_attendance")
          (let* a := getitem event "phq_attendance" in Ok (truthy a))
          (Ok (JInt 0)).

(** ["Predicted End Date (local tz)"]: the local time of
    [event["predicted_end"]]
    [if "predicted_end" in event and event["predicted_end"] is not None
     else ""]. *)
Definition predicted_end_cell (event : json) : result string :=
  if_else (local_time event "predicted_end")
          (and_then (contains "predicted_end" event)
                    (let* p := getitem event "predicted_end" in
                     Ok (negb (is_none p))))
          (Ok ""%string).

(** ["Venue Name"] and ["Venue Address"]: [venue[key] if venue else ""]. *)
Definition venue_cell (venue : json) (key : string) : result json :=
  if_else (getitem venue key) (Ok (truthy venue)) (Ok (JStr "")).

(** ["Placekey"]: [event["geo"]["placekey"]
    if "geo" in event and "placekey" in event["geo"] else ""]. *)
Definition placekey_cell (event : json) : result json :=
  if_else (let* geo := getitem event "geo" in getitem geo "placekey")
          (and_then (contains "geo" event)
                    (let* geo := getitem event "geo" in
                     contains "placekey" geo))
          (Ok (JStr "")).

(** ["Predicted Event Spend"]: [f"${event['predicted_event_spend']:,.0f}"
    if "predicted_event_spend" in event
       and event["predicted_event_spend"] is not None
    else ""]. *)
Definition spend_cell (event : json) : result string :=
  if_else (let* x := getitem event "predicted_event_spend" in dollars x)
          (and_then (contains "predicted_event_spend" event)
                    (let* x := getitem event "predicted_event_spend" in
                     Ok (negb (is_none x))))
          (Ok ""%string).

(** ["Predicted Event Spend (Hospitality)"]:
    [f"${event['predicted_event_spend_industries']['hospitality']:,.0f}"
    if "predicted_event_spend_industries" in event
       and event["predicted_event_spend_industries"]["hospitality"]
           is not None
    else ""]. *)
Definition hospitality_cell (event : json) : result string :=
  if_else (let* ind := getitem event "predicted_event_spend_industries" in
           let* x := getitem ind "hospitality" in
           dollars x)
          (and_then (contains "predicted_event_spend_industries" event)
                    (let* ind :=
                       getitem event "predicted_event_spend_industries" in
                     let* x := getitem ind "hospitality" in
                     Ok (negb (is_none x))))
          (Ok ""%string).

(** The body of the loop of [show_events_list]: [venue], then the entries
    of [row] in the order they are written. *)
Definition event_row (event : json) : result EventRow :=
  let* entities := getitem event "entities" in
  let* ents := iter entities in
  let* venue := first_venue ents in
  let* title := getitem event "title" in
  let* attendance := attendance_cell event in
  let* category := getitem event "category" in
  let* start := local_time event "start" in
  let* end_ := local_time event "end" in
  let* predicted_end := predicted_end_cell event in
  let* venue_name := venue_cell venue "name" in
  let* venue_address := venue_cell venue "formatted_address" in
  let* placekey := placekey_cell event in
  let* spend := spend_cell event in
  let* hospitality := hospitality_cell event in
  Ok (mkrow title attendance category start end_ predicted_end
            venue_name venue_address placekey spend hospitality).

(** [for event in ...: ...; results.append(row)]: the rows accumulate in
    [results]; the first exception leaves the loop. *)
Fixpoint for_events (evs : list json) (results : list EventRow)
  : result (list EventRow) :=
  match evs with
  | [] => Ok results
  | event :: rest =>
      let* row := event_row event in
      for_events rest (results ++ [row])
  end.

(** [show_events_list(events)]; its value is the list of rows handed to
    [pd.DataFrame] and then to [st.dataframe]. *)
Definition show_events_list (events : json) : result (list EventRow) :=
  let* rs := getitem events "results" in
  let* evs := iter rs in
  for_events evs [].

(** A record as the formatter needs it: [title] and [category] present,
    [start] and [end] readable timestamps and [timezone] a known zone,
    [entities] a list whose venue, if any, carries [name] and
    [formatted_address]. *)
Definition mandatory_fields (m : gmap string json) : Prop :=
  is_Some (m !! "title") /\ is_Some (m !! "category") /\
  (exists s, local_time (JObj m) "start" = Ok s) /\
  (exists s, local_time (JObj m) "end" = Ok s) /\
  (exists ents venue name address,
     m !! "entities" = Some (JArr ents) /\ first_venue ents = Ok venue /\
     venue_cell venue "name" = Ok name /\
     venue_cell venue "formatted_address" = Ok address).

(** The key is absent, or present with the value [None]. *)
Definition absent_or_null (m : gmap string json) (key : string) : Prop :=
  m !! key = None \/ m !! key = Some JNull.

(** The optional fields in the shapes the formatter copes with: each one
    left out in the way it tolerates, or filled in with a usable value. *)
Definition optional_fields (m : gmap string json) : Prop :=
  (absent_or_null m "predicted_end" \/
   exists s, local_time (JObj m) "predicted_end" = Ok s) /\
  (m !! "geo" = None \/ exists g, m !! "geo" = Some (JObj g)) /\
  (absent_or_null m "predicted_event_spend" \/
   exists x s, m !! "predicted_event_spend" = Some x /\ dollars x = Ok s) /\
  (m !! "predicted_event_spend_industries" = None \/
   exists ind, m !! "predicted_event_spend_industries" = Some (JObj ind) /\
     (ind !! "hospitality" = Some JNull \/
      exists x s, ind !! "hospitality" = Some x /\ dollars x = Ok s)).

End Formatter.

(** ** Insight assembly *)

(** What [show_location_insights] reads from its surroundings: the clock
    ([datetime.datetime.now().date()]), [st.secrets] and the session token. *)
Record Env : Type := mkenv {
  now_date : date;
  secrets : gmap string json;
  google_session_token : string;
}.

(** Arguments of [phq.radius.search]; [location__origin] is kept as the
    pair it is rendered from. *)
Record RadiusSearch : Type := mkradius_search {
  location__origin : json * json;
  rs_radius_unit : string;
  rs_industry : json;
}.

(** Arguments of [show_metrics]. *)
Record ShowMetrics : Type := mkshow_metrics {
  sm_lat : json;
  sm_lon : json;
  sm_radius : float;
  sm_radius_unit : string;
  sm_date_from : date;
  sm_date_to : date;
  sm_suggested_radius : float * string;
  sm_tz : string;
}.

(** Arguments of [fetch_events]. *)
Record FetchEvents : Type := mkfetch_events {
  fe_lat : json;
  fe_lon : json;
  fe_radius : float;
  fe_date_from : date;
  fe_date_to : date;
  fe_tz : string;
  fe_categories : list string;
  fe_radius_unit : string;
}.

(** Arguments of [show_map]. *)
Record ShowMap : Type := mkshow_map {
  map_lat : json;
  map_lon : json;
  map_radius_meters : float;
  map_events : json;
}.

(** The outward calls of one run of [show_location_insights], in order. *)
Record Insights : Type := mkinsights {
  radius_call : RadiusSearch;
  header_name : json;
  metrics_call : ShowMetrics;
  events_call : FetchEvents;
  map_call : ShowMap;
  events_table : list EventRow;
}.

(** The collaborators of the assembly: [utils.google.get_place_details],
    [phq.radius.search] read through [.radius] and [.radius_unit],
    [utils.predicthq.fetch_events] and its [ATTENDED_CATEGORIES]. *)
Class Services : Type := {
  get_place_details : string -> string -> result json;
  radius_search : RadiusSearch -> result (float * string);
  fetch_events : FetchEvents -> result json;
  ATTENDED_CATEGORIES : list string;
}.

Section Insight.

Context {libs : Libraries} {svc : Services}.

(** [fetch_suggested_radius(lat, lon, radius_unit="mi", industry="parking")];
    [None] stands for an argument left to its default.  The value pairs the
    request sent with the answer.  ([@st.cache_data], which answers a
    repeated call from memory, is left out here and below: the definitions
    give one execution of the body.) *)
Definition fetch_suggested_radius (lat lon : json)
    (radius_unit : option string) (industry : option json)
  : result (RadiusSearch * (float * string)) :=
  let call :=
    mkradius_search (lat, lon) (default "mi"%string radius_unit)
                    (default (JStr "parking") industry) in
  let* suggested_radius := radius_search call in
  Ok (call, suggested_radius).

(** [st.secrets["suggested_radius_industry"]
     if "suggested_radius_industry" in st.secrets else "accommodation"]. *)
Definition suggested_radius_industry (env : Env) : json :=
  match secrets env !! "suggested_radius_industry"%string with
  | Some v => v
  | None => JStr "accommodation"
  end.

(** One execution of the body of [show_location_insights(place_id)]. *)
Definition show_location_insights (env : Env) (place_id : string)
  : result Insights :=
  let* place_details :=
    get_place_details place_id (google_session_token env) in
  let* r := getitem place_details "result" in
  let* name := getitem r "name" in
  let* r := getitem place_details "result" in
  let* g := getitem r "geometry" in
  let* l := getitem g "location" in
  let* lat := getitem l "lat" in
  let* r := getitem place_details "result" in
  let* g := getitem r "geometry" in
  let* l := getitem g "location" in
  let* lon := getitem l "lng" in
  let tz := "UTC"%string in
  let date_from := now_date env in
  let* date_to := date_add_days date_from 90 in
  let categories := ATTENDED_CATEGORIES in
  let industry := suggested_radius_industry env in
  let* '(call, (radius, radius_unit)) :=
    fetch_suggested_radius lat lon (Some "mi"%string) (Some industry) in
  let metrics :=
    mkshow_metrics lat lon radius radius_unit date_from date_to
                   (radius, radius_unit) tz in
  let request :=
    mkfetch_events lat lon radius date_from date_to tz categories
                   radius_unit in
  let* events := fetch_events request in
  let map := mkshow_map lat lon (calc_meters radius radius_unit) events in
  let* rows := show_events_list events in
  Ok (mkinsights call name metrics request map rows).

End Insight.

(** ** Address lookup and entry point *)

(** [utils.google.places_autocomplete] on the text typed and the session
    token, and the built-in [str] on a decoded value, of which only its
    action on a str is fixed here. *)
Class Places : Type := {
  places_autocomplete : string -> string -> result json;
  py_str : json -> string;
  py_str_str : forall s, py_str (JStr s) = s;
}.

Section Lookup.

Context {places : Places}.

(** One element of the comprehension of [lookup_address]:
    [(str(result["description"]), result["place_id"])]. *)
Definition candidate (prediction : json) : result (string * json) :=
  let* description := getitem prediction "description" in
  let* place_id := getitem prediction "place_id" in
  Ok (py_str description, place_id).

(** [[... for result in results]]: the elements in order, up to the first
    exception. *)
Fixpoint candidates (predictions : list json) : result (list (string * json)) :=
  match predictions with
  | [] => Ok []
  | prediction :: rest =>
      let* c := candidate prediction in
      let* cs := candidates rest in
      Ok (c :: cs)
  end.

(** [lookup_address(text)], with the session token it reads from
    [st.session_state]. *)
Definition lookup_address (session_token text : string)
  : result (list (string * json)) :=
  if (0 <? String.length text)%nat then
    let* results := places_autocomplete text session_token in
    let* predictions := iter results in
    candidates predictions
  else Ok [].

End Lookup.

(** What [show_address_lookup] puts on the page: the title, and the
    insights when a place is selected. *)
Record AddressPage : Type := mkaddress_page {
  page_title : json;
  page_insights : option Insights;
}.

(** What [main] ends with: the warning, or the address page. *)
Inductive Outcome : Type :=
  | Warned (message : string)
  | Shown (page : AddressPage).

Section Entry.

Context {libs : Libraries} {svc : Services}.

(** [show_address_lookup()].  The search box calls [lookup_address] while
    the user types and returns the place chosen, or [None]; [selected] is
    that return value. *)
Definition show_address_lookup (env : Env) (selected : option string)
  : result AddressPage :=
  let* title := getitem (JObj (secrets env)) "title" in
  match selected with
  | Some place_id =>
      let* insights := show_location_insights env place_id in
      Ok (mkaddress_page title (Some insights))
  | None => Ok (mkaddress_page title None)
  end.

(** [main()]: [uuid4_hex] is [uuid.uuid4().hex], stored as the session
    token, and [api_key] is the value of [get_api_key()]. *)
Definition main (uuid4_hex : string) (api_key : option string) (env : Env)
    (selected : option string) : result Outcome :=
  let env := mkenv (now_date env) (secrets env) uuid4_hex in
  match api_key with
  | Some _ =>
      let* page := show_address_lookup env selected in
      Ok (Shown page)
  | None => Ok (Warned "Please set a PredictHQ API Token.")
  end.

(** A place answer with the entries [show_location_insights] reads. *)
Definition resolved_place (place_details name lat lon : json) : Prop :=
  exists r g l,
    getitem place_details "result" = Ok r /\ getitem r "name" = Ok name /\
    getitem r "geometry" = Ok g /\ getitem g "location" = Ok l /\
    getitem l "lat" = Ok lat /\ getitem l "lng" = Ok lon.

End Entry.

(** ** Concrete collaborators and sample data

    Instances of the collaborators, used to run the model: a strict reader
    of the timestamps the events API emits ([YYYY-MM-DDTHH:MM:SSZ], a
    subset of what [dateutil] accepts) and the 2024 rules of a few zones of
    the IANA database. *)
Module Sample.

Definition digit (c : ascii) : option Z :=
  let n := Z.of_nat (nat_of_ascii c) in
  if (48 <=? n) && (n <=? 57) then Some (n - 48) else None.

Fixpoint number_from (acc : Z) (s : string) : option Z :=
  match s with
  | EmptyString => Some acc
  | String c rest =>
      match digit c with
      | Some d => number_from (acc * 10 + d) rest
      | None => None
      end
  end.

Definition field (s : string) (pos len : nat) : option Z :=
  number_from 0 (substring pos len s).

Definition is_at (s : string) (pos : nat) (sep : string) : bool :=
  String.eqb (substring pos 1 s) sep.

Definition iso_parse (s : string) : result instant :=
  match field s 0 4, field s 5 2, field s 8 2,
        field s 11 2, field s 14 2, field s 17 2 with
  | Some y, Some m, Some d, Some hh, Some mm, Some ss =>
      if (String.length s =? 20)%nat
         && is_at s 4 "-" && is_at s 7 "-" && is_at s 10 "T"
         && is_at s 13 ":" && is_at s 16 ":" && is_at s 19 "Z"
         && (1 <=? y) && (1 <=? m) && (m <=? 12)
         && (1 <=? d) && (d <=? days_in_month y m)
         && (hh <? 24) && (mm <? 60) && (ss <? 60)
      then Ok (utc_datetime y m d hh mm ss)
      else Raise ParserError
  | _, _, _, _, _, _ => Raise ParserError
  end.

(** US Eastern time in 2024: daylight saving from 10 March 07:00 UTC to
    3 November 06:00 UTC. *)
Definition new_york : tzinfo := fun t =>
  if (utc_datetime 2024 3 10 7 0 0 <=? t) && (t <? utc_datetime 2024 11 3 6 0 0)
  then -4 * 3600 else -5 * 3600.

Definition timezone (name : string) : result tzinfo :=
  if String.eqb name "UTC" then Ok (fun _ => 0)
  else if String.eqb name "America/New_York" then Ok new_york
  else if String.eqb name "Asia/Tokyo" then Ok (fun _ => 9 * 3600)
  else Raise UnknownTimeZoneError.

Definition obj (kvs : list (string * json)) : json := JObj (list_to_map kvs).

Definition arena : json :=
  obj [("type", JStr "venue"); ("name", JStr "Arena");
       ("formatted_address", JStr "1 Main St")]%string.

Definition speaker : json :=
  obj [("type", JStr "speaker"); ("name", JStr "A. Speaker")]%string.

(** The fields every record carries. *)
Definition base (zone : string) (entities : list json)
  : list (string * json) :=
  [("title", JStr "Concert"); ("category", JStr "concerts");
   ("start", JStr "2024-06-01T20:00:00Z");
   ("end", JStr "2024-06-02T03:30:00Z");
   ("timezone", JStr zone); ("entities", JArr entities)]%string.

(** A record with every optional field filled in. *)
Definition full_record : gmap string json :=
  list_to_map
    (base "America/New_York" [speaker; arena]
     ++ [("phq_attendance", JInt 5000);
         ("predicted_end", JStr "2024-06-02T04:00:00Z");
         ("geo", obj [("placekey", JStr "zzw-222@abc")]);
         ("predicted_event_spend", JFloat 1234.5);
         ("predicted_event_spend_industries",
          obj [("hospitality", JFloat 98765.4)])])%list.

Definition full_event : json := JObj full_record.

(** [full_event] with one key removed. *)
Definition without (key : string) : json := JObj (delete key full_record).

(** [full_event] with one key set to [v]. *)
Definition with_field (key : string) (v : json) : json :=
  JObj (<[key := v]> full_record).

(** A record with the optional fields absent or null. *)
Definition bare_record : gmap string json :=
  list_to_map
    (base "Asia/Tokyo" [speaker]
     ++ [("phq_attendance", JNull);
         ("predicted_end", JNull);
         ("predicted_event_spend", JNull);
         ("predicted_event_spend_industries",
          obj [("hospitality", JNull)])])%list.

Definition bare_event : json := JObj bare_record.

Definition batch (evs : list json) : json :=
  obj [("count", JInt (Z.of_nat (length evs))); ("results", JArr evs)]%string.

Definition place : json :=
  obj [("result",
        obj [("name", JStr "Grand Hotel");
             ("geometry",
              obj [("location",
                    obj [("lat", JFloat 40.75); ("lng", JFloat (-73.99))])])])
      ]%string.

(** [full_event] with [predicted_event_spend_industries] holding other
    industries only. *)
Definition no_hospitality_event : json :=
  with_field "predicted_event_spend_industries"
             (obj [("accommodation", JFloat 10)]).

Definition libraries : Libraries :=
  {| parse_date := iso_parse; pytz_timezone := timezone |}.

Definition services : Services :=
  {| get_place_details := fun place_id token => Ok place;
     radius_search := fun call => Ok (2.5%float, rs_radius_unit call);
     fetch_events := fun call => Ok (batch [full_event; bare_event]);
     ATTENDED_CATEGORIES := ["concerts"; "sports"; "festivals"] |}.

Definition env (today : date) (secrets : gmap string json) : Env :=
  mkenv today secrets "0123456789abcdef".

(** The rows expected for [full_event] and [bare_event]. *)
Definition full_row : EventRow :=
  mkrow (JStr "Concert") (JInt 5000) (JStr "concerts")
        "01-Jun-2024 16:00" "01-Jun-2024 23:30" "02-Jun-2024 00:00"
        (JStr "Arena") (JStr "1 Main St") (JStr "zzw-222@abc")
        "$1,234" "$98,765".

Definition bare_row : EventRow :=
  mkrow (JStr "Concert") (JInt 0) (JStr "concerts")
        "02-Jun-2024 05:00" "02-Jun-2024 12:30" ""
        (JStr "") (JStr "") (JStr "") "" "".

(** The formatter and the assembly run with these collaborators. *)
Definition row (event : json) : result EventRow := @event_row libraries event.

Definition rows (events : json) : result (list EventRow) :=
  @show_events_list libraries events.

Definition run (e : Env) : result Insights :=
  @show_location_insights libraries services e "place-1".

(** Two predictions of the autocomplete provider, and one cut short. *)
Definition prediction (description place_id : string) : json :=
  obj [("description", JStr description); ("place_id", JStr place_id)].

Definition predictions : list json :=
  [prediction "1 Main St, Anytown, USA" "place-1";
   prediction "1 Main Rd, Othertown, USA" "place-2"].

Definition cut_prediction : json := obj [("description", JStr "1 Main")].

(** [str] on the kinds of value the samples hold. *)
Definition str_of (v : json) : string :=
  match v with
  | JStr s => s
  | JNull => "None"
  | JBool true => "True"
  | JBool false => "False"
  | _ => "..."
  end.

Definition places_for (answer : result json) : Places :=
  {| places_autocomplete := fun text token => answer;
     py_str := str_of;
     py_str_str := fun s => eq_refl |}.

(** The services with the radius service, or the place lookup, down. *)
Definition radius_down : Services :=
  {| get_place_details := fun place_id token => Ok place;
     radius_search := fun call => Raise ValueError;
     fetch_events := fun call => Ok (batch [full_event; bare_event]);
     ATTENDED_CATEGORIES := ["concerts"; "sports"; "festivals"] |}.

Definition place_down : Services :=
  {| get_place_details := fun place_id token => Raise ValueError;
     radius_search := fun call => Ok (2.5%float, rs_radius_unit call);
     fetch_events := fun call => Ok (batch [full_event; bare_event]);
     ATTENDED_CATEGORIES := ["concerts"; "sports"; "festivals"] |}.

Definition titled : gmap string json := {["title" := JStr "Location Insights"]}.

End Sample.

(** * Properties *)

(** Evaluates the closed computation on the left of [H : c = Ok x] and
    replaces the cell [x] by its value. *)
Ltac cell_value H :=
  match type of H with
  | _ = Ok ?x =>
      let v := fresh "v" in
      set (v := x) in *; clearbody v; vm_compute in H; injection H as <-
  end.

(** ** The exception monad *)

Section ResultFacts.
Context {A B : Type}.

Lemma bind_ok (m : result A) (k : A -> result B) (b : B) :
  bind m k = Ok b <-> exists a, m = Ok a /\ k a = Ok b.
Proof.
  split.
  - destruct m as [a|e]; simpl; [eauto | discriminate].
  - intros (a & -> & H). exact H.
Qed.

Lemma raises_iff_not_ok (m : result A) : raises m <-> forall a, m <> Ok a.
Proof.
  split.
  - intros [e ->] a. discriminate.
  - intros H. destruct m as [a|e]; [destruct (H a); reflexivity | by exists e].
Qed.

Lemma bind_raises (m : result A) (k : A -> result B) :
  raises m -> raises (bind m k).
Proof. intros [e ->]. by exists e. Qed.

Lemma if_else_ok (t e : result A) (c : result bool) (a : A) :
  if_else t c e = Ok a <->
  (c = Ok true /\ t = Ok a) \/ (c = Ok false /\ e = Ok a).
Proof.
  unfold if_else. split.
  - destruct c as [[]|]; simpl; [by left | by right | discriminate].
  - intros [[-> H]|[-> H]]; exact H.
Qed.

End ResultFacts.

Lemma and_then_ok (a b : result bool) (x : bool) :
  and_then a b = Ok x <->
  (a = Ok true /\ b = Ok x) \/ (a = Ok false /\ x = false).
Proof.
  unfold and_then. split.
  - destruct a as [[]|]; simpl; [by left | right | discriminate].
    split; congruence.
  - intros [[-> H]|[-> ->]]; [exact H | reflexivity].
Qed.

Lemma getitem_ok (v x : json) (key : string) :
  getitem v key = Ok x <-> exists m, v = JObj m /\ m !! key = Some x.
Proof.
  split.
  - destruct v; simpl; try discriminate.
    destruct (m !! key) eqn:E; [|discriminate].
    intros [= ->]. eauto.
  - intros (m & -> & H). simpl. by rewrite H.
Qed.

Lemma getitem_absent (m : gmap string json) (key : string) :
  m !! key = None -> getitem (JObj m) key = Raise (KeyError key).
Proof. intros H. simpl. by rewrite H. Qed.

Lemma contains_obj (m : gmap string json) (key : string) :
  contains key (JObj m) = Ok (bool_decide (is_Some (m !! key))).
Proof. reflexivity. Qed.

Lemma contains_absent (m : gmap string json) (key : string) :
  m !! key = None -> contains key (JObj m) = Ok false.
Proof.
  intros H. by rewrite contains_obj, H.
Qed.

Lemma contains_present (m : gmap string json) (key : string) (x : json) :
  m !! key = Some x -> contains key (JObj m) = Ok true.
Proof.
  intros H. by rewrite contains_obj, H.
Qed.

(** ** Calendar arithmetic *)

Lemma month_day_ok_year :
  forallb (fun k => month_day_ok true (Z.of_nat k)
                    && month_day_ok false (Z.of_nat k))
          (seq 0 365) = true.
Proof. vm_compute. reflexivity. Qed.

Lemma month_day_spec (leapyear : bool) (n : Z) :
  0 <= n < 365 ->
  let '(mo, d) := month_day leapyear n in
  1 <= mo <= 12 /\
  1 <= d <= table DAYS_IN_MONTH mo + (if (mo =? 2) && leapyear then 1 else 0) /\
  table DAYS_BEFORE_MONTH mo + (if (2 <? mo) && leapyear then 1 else 0) + d = n + 1.
Proof.
  intros Hn.
  pose proof month_day_ok_year as Hall. rewrite forallb_forall in Hall.
  specialize (Hall (Z.to_nat n)).
  rewrite Z2Nat.id in Hall by lia.
  assert (month_day_ok leapyear n = true) as Hok.
  { assert (In (Z.to_nat n) (seq 0 365)) as Hin by (apply in_seq; lia).
    apply Hall in Hin. apply andb_true_iff in Hin as [Ht Hf].
    by destruct leapyear. }
  unfold month_day_ok in Hok. destruct (month_day leapyear n) as [mo d].
  rewrite !andb_true_iff in Hok.
  destruct Hok as ((((H1 & H2) & H3) & H4) & H5).
  apply Z.leb_le in H1, H2, H3, H4. apply Z.eqb_eq in H5. lia.
Qed.

Lemma days_before_year_cycle (a b c e : Z) :
  0 <= b <= 3 -> 0 <= c <= 24 -> 0 <= e <= 3 ->
  days_before_year (400 * a + 100 * b + 4 * c + e + 1)
  = 146097 * a + 36524 * b + 1461 * c + 365 * e.
Proof.
  intros Hb Hc He. unfold days_before_year. cbv zeta.
  replace (400 * a + 100 * b + 4 * c + e + 1 - 1)
    with (400 * a + 100 * b + 4 * c + e) by lia.
  Z.div_mod_to_equations. lia.
Qed.

Lemma is_leap_cycle (a b c e : Z) :
  0 <= b <= 3 -> 0 <= c <= 24 -> 0 <= e <= 3 ->
  is_leap (400 * a + 100 * b + 4 * c + e + 1)
  = (e =? 3) && (negb (c =? 24) || (b =? 3)).
Proof.
  intros Hb Hc He. unfold is_leap.
  destruct (Z.eqb_spec e 3), (Z.eqb_spec c 24), (Z.eqb_spec b 3);
    repeat match goal with
           | |- context [?x mod ?y =? 0] => destruct (Z.eqb_spec (x mod y) 0)
           end;
    simpl; try reflexivity; exfalso; Z.div_mod_to_equations; lia.
Qed.

Ltac unfold_ordinal :=
  unfold toordinal, ymd2ord, days_in_month, days_before_month;
  simpl year; simpl month; simpl day.

(** [_ord2ymd] returns a date of the calendar whose ordinal is the one
    given. *)
Lemma ord2ymd_spec (o : Z) :
  1 <= o ->
  let d := ord2ymd o in
  toordinal d = o /\
  1 <= month d <= 12 /\ 1 <= day d <= days_in_month (year d) (month d) /\
  1 <= year d /\ (o <= MAXORDINAL -> year d <= 9999).
Proof.
  intros Ho. unfold ord2ymd, MAXORDINAL.
  set (n := o - 1). assert (o = n + 1) as Hon by (unfold n; lia).
  set (a := n / DI400Y). set (r1 := n mod DI400Y).
  set (b := r1 / DI100Y). set (r2 := r1 mod DI100Y).
  set (c := r2 / DI4Y). set (r3 := r2 mod DI4Y).
  set (e := r3 / 365). set (k := r3 mod 365).
  cbv zeta.
  assert (n = 146097 * a + r1 /\ 0 <= r1 < 146097) as [Hn Hr1].
  { subst a r1. unfold DI400Y. Z.div_mod_to_equations. lia. }
  assert (r1 = 36524 * b + r2 /\ 0 <= r2 < 36524) as [Hr1' Hr2].
  { subst b r2. unfold DI100Y. Z.div_mod_to_equations. lia. }
  assert (r2 = 1461 * c + r3 /\ 0 <= r3 < 1461) as [Hr2' Hr3].
  { subst c r3. unfold DI4Y. Z.div_mod_to_equations. lia. }
  assert (r3 = 365 * e + k /\ 0 <= k < 365) as [Hr3' Hk].
  { subst e k. Z.div_mod_to_equations. lia. }
  clearbody a r1 b r2 c r3 e k n.
  assert (0 <= a) as Ha by lia.
  assert (0 <= b <= 4) as Hb by lia.
  assert (0 <= c <= 24) as Hc by lia.
  assert (0 <= e <= 4) as He by lia.
  destruct (Z.eqb_spec e 4) as [He4|He4];
    [|destruct (Z.eqb_spec b 4) as [Hb4|Hb4]]; simpl orb; cbv iota.
  - (* last day of a leap year closing a 4-year cycle *)
    assert (c <= 23) by lia.
    replace (a * 400 + 1 + b * 100 + c * 4 + e - 1)
      with (400 * a + 100 * b + 4 * c + 3 + 1) by lia.
    unfold_ordinal.
    rewrite days_before_year_cycle, is_leap_cycle by lia.
    replace (3 =? 3) with true by reflexivity.
    replace (c =? 24) with false by (symmetry; apply Z.eqb_neq; lia).
    change (table DAYS_BEFORE_MONTH 12) with 334.
    change (table DAYS_IN_MONTH 12) with 31.
    simpl. lia.
  - (* last day of a 400-year cycle *)
    assert (c = 0 /\ e = 0 /\ k = 0) as (-> & -> & ->) by lia.
    replace (a * 400 + 1 + b * 100 + 0 * 4 + 0 - 1)
      with (400 * a + 100 * 3 + 4 * 24 + 3 + 1) by lia.
    unfold_ordinal.
    rewrite days_before_year_cycle, is_leap_cycle by lia.
    change (table DAYS_BEFORE_MONTH 12) with 334.
    change (table DAYS_IN_MONTH 12) with 31.
    simpl. lia.
  - pose proof (month_day_spec ((e =? 3) && (negb (c =? 24) || (b =? 3))) k Hk)
      as Hmd.
    destruct (month_day _ k) as [mo d].
    destruct Hmd as (Hmo & Hd & Hsum).
    replace (a * 400 + 1 + b * 100 + c * 4 + e)
      with (400 * a + 100 * b + 4 * c + e + 1) by lia.
    unfold_ordinal.
    rewrite days_before_year_cycle, is_leap_cycle by lia.
    repeat split; try lia.
    destruct (mo =? 2) eqn:Emo; destruct ((e =? 3) && _); simpl in *; try lia.
    apply Z.eqb_eq in Emo. subst mo.
    change (table DAYS_IN_MONTH 2) with 28 in Hd. lia.
Qed.

Lemma toordinal_in_year (d : date) :
  valid_date d ->
  days_before_year (year d) + 1 <= toordinal d
  <= days_before_year (year d) + 366.
Proof.
  destruct d as [y m dd]. intros (Hy & Hm & Hd). simpl in *.
  unfold toordinal, ymd2ord, days_before_month. simpl.
  unfold days_in_month in Hd.
  assert (m = 1 \/ m = 2 \/ m = 3 \/ m = 4 \/ m = 5 \/ m = 6 \/
          m = 7 \/ m = 8 \/ m = 9 \/ m = 10 \/ m = 11 \/ m = 12)
    as Hcases by lia.
  destruct (is_leap y);
    repeat (destruct Hcases as [Hcases|Hcases]);
    subst m;
    cbv [table nth Z.to_nat Pos.to_nat Pos.iter_op Nat.add
         DAYS_IN_MONTH DAYS_BEFORE_MONTH] in *;
    simpl in *; lia.
Qed.

Lemma days_before_year_mono (y y' : Z) :
  y <= y' -> days_before_year y <= days_before_year y'.
Proof. intros H. unfold days_before_year. Z.div_mod_to_equations. lia. Qed.

(** Adding days lands on the date that many ordinals later. *)
Lemma date_add_days_spec (d : date) (k : Z) :
  0 < toordinal d + k <= MAXORDINAL ->
  exists d', date_add_days d k = Ok d' /\ valid_date d' /\
             toordinal d' = toordinal d + k.
Proof.
  intros Hr. unfold date_add_days.
  replace (0 <? toordinal d + k) with true by (symmetry; apply Z.ltb_lt; lia).
  replace (toordinal d + k <=? MAXORDINAL) with true
    by (symmetry; apply Z.leb_le; lia).
  simpl. eexists. split; [reflexivity|].
  destruct (ord2ymd_spec (toordinal d + k)) as (Ho & Hm & Hd & Hy & Hy');
    [lia|].
  unfold valid_date. repeat split; try lia.
Qed.

Lemma date_add_days_ok (d d' : date) (k : Z) :
  date_add_days d k = Ok d' ->
  valid_date d' /\ toordinal d' = toordinal d + k.
Proof.
  unfold date_add_days.
  destruct ((0 <? toordinal d + k) && (toordinal d + k <=? MAXORDINAL)) eqn:Hr;
    [|discriminate].
  intros [= <-]. apply andb_true_iff in Hr as [Hlo Hhi].
  apply Z.ltb_lt in Hlo. apply Z.leb_le in Hhi.
  destruct (ord2ymd_spec (toordinal d + k)) as (Ho & Hm & Hd & Hy & Hy');
    [lia|].
  unfold valid_date. repeat split; try lia.
Qed.

(** Ninety days after a valid date before the year 9999 is still a date. *)
Lemma ninety_days_in_range (d : date) :
  valid_date d -> year d <= 9998 -> 0 < toordinal d + 90 <= MAXORDINAL.
Proof.
  intros Hv Hy. pose proof (toordinal_in_year d Hv) as Ho.
  pose proof (days_before_year_mono (year d) 9998 Hy) as Hu.
  pose proof (days_before_year_mono 1 (year d)) as Hl.
  destruct Hv as (Hy1 & _).
  change (days_before_year 9998) with 3651329 in Hu.
  change (days_before_year 1) with 0 in Hl.
  unfold MAXORDINAL. lia.
Qed.

Lemma wall_clock_of_ordinal (local : Z) (d : date) :
  toordinal d = local / 86400 + 1 -> valid_date d ->
  wall_clock local (mkdatetime d (local mod 86400 / 3600) (local mod 3600 / 60)).
Proof.
  intros Ho Hv. unfold wall_clock. cbn [dt_date dt_hour dt_minute].
  unfold utc_datetime. unfold toordinal in Ho. rewrite Ho.
  split; [exact Hv|]. repeat split; Z.div_mod_to_equations; lia.
Qed.

Lemma astimezone_ok (t : instant) (tz : tzinfo) (dt : datetime) :
  astimezone t tz = Ok dt -> wall_clock (t + tz t) dt.
Proof.
  unfold astimezone.
  destruct ((0 <? (t + tz t) / 86400 + 1)
            && ((t + tz t) / 86400 + 1 <=? MAXORDINAL)) eqn:Hr; [|discriminate].
  intros [= <-]. apply andb_true_iff in Hr as [Hlo Hhi].
  apply Z.ltb_lt in Hlo. apply Z.leb_le in Hhi.
  destruct (ord2ymd_spec ((t + tz t) / 86400 + 1)) as (Ho & Hm & Hd & Hy & Hy');
    [lia|].
  apply wall_clock_of_ordinal; [exact Ho|].
  unfold valid_date. repeat split; try lia.
Qed.

Lemma astimezone_total (t : instant) (tz : tzinfo) :
  0 <= t + tz t < MAXORDINAL * 86400 -> exists dt, astimezone t tz = Ok dt.
Proof.
  intros Hr. unfold astimezone.
  replace (0 <? (t + tz t) / 86400 + 1) with true
    by (symmetry; apply Z.ltb_lt; Z.div_mod_to_equations; lia).
  replace ((t + tz t) / 86400 + 1 <=? MAXORDINAL) with true
    by (symmetry; apply Z.leb_le; unfold MAXORDINAL in *;
        Z.div_mod_to_equations; lia).
  simpl. eauto.
Qed.

(** ** Rendering *)

(** The integer [round_half_even] returns is a nearest one, and the even
    one of the two when [m * 2^e] lies half-way. *)
Lemma round_half_even_nearest (m : positive) (e : Z) :
  e < 0 ->
  let n := round_half_even m e in
  2 * Z.abs (Z.pos m - n * 2 ^ (- e)) <= 2 ^ (- e) /\
  (2 * Z.abs (Z.pos m - n * 2 ^ (- e)) = 2 ^ (- e) -> Z.even n = true).
Proof.
  intros He. unfold round_half_even.
  replace (0 <=? e) with false by (symmetry; apply Z.leb_gt; lia).
  assert (0 < 2 ^ (- e)) as Hd by (apply Z.pow_pos_nonneg; lia).
  set (d := 2 ^ (- e)) in *. clearbody d.
  pose proof (Z.div_mod (Z.pos m) d) as Hdm.
  pose proof (Z.mod_pos_bound (Z.pos m) d Hd) as Hr.
  set (q := Z.pos m / d) in *. set (r := Z.pos m mod d) in *.
  clearbody q r. specialize (Hdm ltac:(lia)).
  rewrite Hdm.
  destruct (Z.compare_spec (2 * r) d) as [Heq|Hlt|Hgt]; cbv zeta.
  - destruct (Z.even q) eqn:Hq.
    + replace (d * q + r - q * d) with r by ring. split; [lia | done].
    + replace (d * q + r - (q + 1) * d) with (r - d) by ring.
      split; [lia|]. intros _. rewrite Z.even_add. by rewrite Hq.
  - replace (d * q + r - q * d) with r by ring. split; lia.
  - replace (d * q + r - (q + 1) * d) with (r - d) by ring. split; lia.
Qed.

Lemma group3_keeps_digits (ds : list ascii) (k : nat) :
  Forall (fun c => Ascii.eqb c "," = false) ds ->
  List.filter (fun c => negb (Ascii.eqb c ",")) (group3 ds k) = ds.
Proof.
  intros Hds. revert k. induction Hds as [|d ds Hd _ IH]; intros k; [done|].
  destruct k as [|[|[|[|k]]]]; simpl; rewrite Hd; simpl; by rewrite IH.
Qed.

(** Grouping only inserts separators: without them the digits are back. *)
Lemma group_thousands_keeps_digits (ds : list ascii) :
  Forall (fun c => Ascii.eqb c "," = false) ds ->
  List.filter (fun c => negb (Ascii.eqb c ",")) (group_thousands ds) = ds.
Proof.
  intros Hds. unfold group_thousands.
  assert (forall l : list ascii,
            List.filter (fun c => negb (Ascii.eqb c ",")) (rev l)
            = rev (List.filter (fun c => negb (Ascii.eqb c ",")) l)) as Hrev.
  { induction l as [|c l IH]; [done|]. simpl. rewrite List.filter_app, IH.
    simpl. destruct (negb (Ascii.eqb c ",")); simpl; [done|].
    by rewrite app_nil_r. }
  rewrite Hrev, group3_keeps_digits, rev_involutive; [done|].
  by apply List.Forall_rev.
Qed.

(** ** The event formatter, row by row *)

Section FormatterFacts.

Context {libs : Libraries}.

(** A row is produced exactly when every entry of the dict display is. *)
Lemma event_row_ok (event : json) (row : EventRow) :
  event_row event = Ok row <->
  exists entities ents venue,
    getitem event "entities" = Ok entities /\
    iter entities = Ok ents /\
    first_venue ents = Ok venue /\
    getitem event "title" = Ok (Event_Title row) /\
    attendance_cell event = Ok (PHQ_Attendance row) /\
    getitem event "category" = Ok (Category row) /\
    local_time event "start" = Ok (Start_Date row) /\
    local_time event "end" = Ok (End_Date row) /\
    predicted_end_cell event = Ok (Predicted_End_Date row) /\
    venue_cell venue "name" = Ok (Venue_Name row) /\
    venue_cell venue "formatted_address" = Ok (Venue_Address row) /\
    placekey_cell event = Ok (Placekey row) /\
    spend_cell event = Ok (Predicted_Event_Spend row) /\
    hospitality_cell event = Ok (Predicted_Event_Spend_Hospitality row).
Proof.
  unfold event_row. split.
  - intros H.
    repeat (apply bind_ok in H; destruct H as (? & ? & H)).
    injection H as <-. simpl. eauto 20.
  - intros (entities & ents & venue & H). destruct_and!.
    repeat match goal with
           | H : _ = Ok _ |- _ => rewrite H; clear H; simpl
           end.
    by destruct row.
Qed.

Lemma local_time_ok (event : json) (key s : string) :
  local_time event key = Ok s <->
  exists m str z t tz dt,
    event = JObj m /\
    m !! key = Some (JStr str) /\ parse_date str = Ok t /\
    m !! "timezone" = Some (JStr z) /\ pytz_timezone z = Ok tz /\
    astimezone t tz = Ok dt /\ s = strftime_dby_HM dt.
Proof.
  unfold local_time. split.
  - intros H.
    apply bind_ok in H as (v & Hv & H). apply getitem_ok in Hv as (m & -> & Hv).
    apply bind_ok in H as (t & Ht & H).
    apply bind_ok in H as (z & Hz & H). apply getitem_ok in Hz as (m' & [= <-] & Hz).
    apply bind_ok in H as (tz & Htz & H).
    apply bind_ok in H as (dt & Hdt & [= <-]).
    destruct v as [| | | |str| |]; try discriminate.
    destruct z as [| | | |zone| |]; try discriminate.
    exists m, str, zone, t, tz, dt. eauto 10.
  - intros (m & str & z & t & tz & dt & -> & Hk & Ht & Hz & Htz & Hdt & ->).
    simpl. rewrite Hk. simpl. rewrite Ht. simpl. rewrite Hz. simpl.
    rewrite Htz. simpl. by rewrite Hdt.
Qed.

Lemma attendance_cell_ok (event a : json) :
  attendance_cell event = Ok a <->
  exists x, getitem event "phq_attendance" = Ok x /\
            a = if truthy x then x else JInt 0.
Proof.
  unfold attendance_cell. rewrite if_else_ok. split.
  - intros [[Hc Ht]|[Hc [= <-]]];
      apply bind_ok in Hc as (x & Hx & [= Hb]); exists x; rewrite Hb.
    + split; congruence.
    + by split.
  - intros (x & Hx & ->). rewrite Hx. simpl.
    destruct (truthy x); [left | right]; by split.
Qed.

(** The loop keeps the rows it was given and appends one row per event,
    in order. *)
Lemma for_events_ok (evs : list json) (results rows : list EventRow) :
  for_events evs results = Ok rows <->
  exists new, Forall2 (fun e r => event_row e = Ok r) evs new /\
              rows = results ++ new.
Proof.
  revert results. induction evs as [|e evs IH]; intros results; simpl.
  - split.
    + intros [= <-]. exists []. split; [constructor | by rewrite app_nil_r].
    + intros (new & Hn & ->). inversion Hn. by rewrite app_nil_r.
  - rewrite bind_ok. split.
    + intros (r & Hr & H). apply IH in H as (new & Hn & ->).
      exists (r :: new). split; [by constructor | by rewrite <- app_assoc].
    + intros (new & Hn & ->). inversion Hn as [|? r ? new' Hr Hn']; subst.
      exists r. split; [exact Hr|]. apply IH. exists new'.
      split; [exact Hn' | by rewrite <- app_assoc].
Qed.

Lemma show_events_list_ok (events : json) (evs : list json)
    (rows : list EventRow) :
  getitem events "results" = Ok (JArr evs) ->
  show_events_list events = Ok rows <->
  Forall2 (fun e r => event_row e = Ok r) evs rows.
Proof.
  intros Hr. unfold show_events_list. rewrite Hr. simpl.
  rewrite for_events_ok. split.
  - by intros (new & Hn & ->).
  - intros H. by exists rows.
Qed.

(** One record without a row makes the whole call raise. *)
Lemma show_events_list_raises (events : json) (evs : list json) (e : json) :
  getitem events "results" = Ok (JArr evs) ->
  e ∈ evs -> raises (event_row e) -> raises (show_events_list events).
Proof.
  intros Hr Hin He. apply raises_iff_not_ok. intros rows Hrows.
  apply (show_events_list_ok _ _ _ Hr) in Hrows.
  apply list_elem_of_lookup in Hin as [i Hi].
  destruct (Forall2_lookup_l _ _ _ _ _ Hrows Hi) as (r & _ & Hok).
  destruct He as [err He]. congruence.
Qed.

Lemma event_row_needs_key (m : gmap string json) (key : string) :
  key ∈ subscripted_keys -> m !! key = None -> raises (event_row (JObj m)).
Proof.
  intros Hin Hnone. apply raises_iff_not_ok. intros row Hrow.
  apply event_row_ok in Hrow
    as (entities & ents & venue & He & _ & _ & Ht & Ha & Hc & Hs & Hn & _).
  apply getitem_ok in He as (? & [= <-] & He).
  apply getitem_ok in Ht as (? & [= <-] & Ht).
  apply getitem_ok in Hc as (? & [= <-] & Hc).
  apply attendance_cell_ok in Ha as (x & Ha & _).
  apply getitem_ok in Ha as (? & [= <-] & Ha).
  apply local_time_ok in Hs as (? & ? & ? & ? & ? & ? & [= <-] & Hs & _ & Hz & _).
  apply local_time_ok in Hn as (? & ? & ? & ? & ? & ? & [= <-] & Hn & _).
  unfold subscripted_keys in Hin.
  repeat (apply elem_of_cons in Hin as [->|Hin]; [congruence|]).
  by apply elem_of_nil in Hin.
Qed.

(** C2: a record without the [title] key or without the [category] key
    makes [show_events_list] raise for the whole batch: the call yields
    no rows at all, the record is not skipped and nothing is defaulted. *)
Theorem missing_title_or_category_is_fatal
    (events : json) (evs : list json) (m : gmap string json) :
  getitem events "results" = Ok (JArr evs) ->
  JObj m ∈ evs ->
  m !! "title" = None \/ m !! "category" = None ->
  raises (show_events_list events) /\
  forall rows, show_events_list events <> Ok rows.
Proof.
  intros Hr Hin Hmiss.
  assert (raises (show_events_list events)) as H.
  { apply (show_events_list_raises _ _ _ Hr Hin).
    destruct Hmiss as [Hm|Hm];
      (eapply event_row_needs_key; [|exact Hm]);
      unfold subscripted_keys; rewrite !elem_of_cons; tauto. }
  split; [exact H | by apply raises_iff_not_ok].
Qed.

(** C10: the same holds for every key read by plain subscripting:
    [start], [end], [timezone], [entities] and [phq_attendance]. *)
Theorem missing_subscripted_key_is_fatal
    (events : json) (evs : list json) (m : gmap string json) (key : string) :
  getitem events "results" = Ok (JArr evs) ->
  JObj m ∈ evs ->
  key ∈ ["start"; "end"; "timezone"; "entities"; "phq_attendance"] ->
  m !! key = None ->
  raises (show_events_list events) /\
  forall rows, show_events_list events <> Ok rows.
Proof.
  intros Hr Hin Hkey Hmiss.
  assert (raises (show_events_list events)) as H.
  { apply (show_events_list_raises _ _ _ Hr Hin).
    eapply event_row_needs_key; [|exact Hmiss].
    unfold subscripted_keys. rewrite !elem_of_cons in Hkey.
    rewrite !elem_of_cons. tauto. }
  split; [exact H | by apply raises_iff_not_ok].
Qed.

(** *** The optional entries, case by case *)

Lemma is_none_false (x : json) : x <> JNull -> is_none x = false.
Proof. by destruct x. Qed.

Lemma predicted_end_cell_blank (m : gmap string json) :
  absent_or_null m "predicted_end" ->
  predicted_end_cell (JObj m) = Ok ""%string.
Proof.
  unfold predicted_end_cell, if_else, and_then.
  intros [Hm|Hm]; simpl; by rewrite Hm.
Qed.

Lemma predicted_end_cell_filled (m : gmap string json) (x : json) :
  m !! "predicted_end" = Some x -> x <> JNull ->
  predicted_end_cell (JObj m) = local_time (JObj m) "predicted_end".
Proof.
  intros Hm Hx. unfold predicted_end_cell, if_else, and_then.
  rewrite (contains_present _ _ _ Hm). simpl. rewrite Hm. simpl.
  by rewrite (is_none_false _ Hx).
Qed.

Lemma placekey_cell_no_geo (m : gmap string json) :
  m !! "geo" = None -> placekey_cell (JObj m) = Ok (JStr "").
Proof.
  intros Hm. unfold placekey_cell, if_else, and_then. simpl. by rewrite Hm.
Qed.

Lemma placekey_cell_geo (m g : gmap string json) :
  m !! "geo" = Some (JObj g) ->
  placekey_cell (JObj m) = Ok (default (JStr "") (g !! "placekey")).
Proof.
  intros Hm. unfold placekey_cell, if_else, and_then. simpl. rewrite Hm. simpl.
  by destruct (g !! "placekey").
Qed.

Lemma spend_cell_blank (m : gmap string json) :
  absent_or_null m "predicted_event_spend" -> spend_cell (JObj m) = Ok ""%string.
Proof.
  unfold spend_cell, if_else, and_then.
  intros [Hm|Hm]; simpl; by rewrite Hm.
Qed.

Lemma spend_cell_filled (m : gmap string json) (x : json) :
  m !! "predicted_event_spend" = Some x -> x <> JNull ->
  spend_cell (JObj m) = dollars x.
Proof.
  intros Hm Hx. unfold spend_cell, if_else, and_then. simpl. rewrite Hm. simpl.
  by rewrite (is_none_false _ Hx).
Qed.

Lemma hospitality_cell_no_industries (m : gmap string json) :
  m !! "predicted_event_spend_industries" = None ->
  hospitality_cell (JObj m) = Ok ""%string.
Proof.
  intros Hm. unfold hospitality_cell, if_else, and_then. simpl. by rewrite Hm.
Qed.

Lemma hospitality_cell_entry (m ind : gmap string json) (x : json) :
  m !! "predicted_event_spend_industries" = Some (JObj ind) ->
  ind !! "hospitality" = Some x ->
  hospitality_cell (JObj m) = if is_none x then Ok ""%string else dollars x.
Proof.
  intros Hm Hx. unfold hospitality_cell, if_else, and_then. simpl.
  rewrite Hm. simpl. rewrite Hx. simpl. by destruct (is_none x).
Qed.

Lemma hospitality_cell_no_entry (m ind : gmap string json) :
  m !! "predicted_event_spend_industries" = Some (JObj ind) ->
  ind !! "hospitality" = None ->
  hospitality_cell (JObj m) = Raise (KeyError "hospitality").
Proof.
  intros Hm Hx. unfold hospitality_cell, if_else, and_then. simpl.
  rewrite Hm. simpl. by rewrite Hx.
Qed.

Lemma dollars_not_null (x : json) (s : string) : dollars x = Ok s -> x <> JNull.
Proof. by intros H ->. Qed.

Lemma local_time_not_null (m : gmap string json) (key s : string) :
  local_time (JObj m) key = Ok s -> exists x, m !! key = Some x /\ x <> JNull.
Proof.
  intros H. apply local_time_ok in H
    as (? & str & ? & ? & ? & ? & [= <-] & Hk & _). eauto.
Qed.

(** C1, as the code has it: a record with the mandatory fields and the
    [phq_attendance] key, whose optional fields are each left out in the
    way the formatter tolerates or filled in with a usable value, gets its
    row; a null [phq_attendance] gives 0, an absent or null [predicted_end]
    the empty string, an absent [geo] or a [geo] object without [placekey]
    the empty string, an absent or null [predicted_event_spend] the empty
    string, and an absent [predicted_event_spend_industries] or a null
    [hospitality] entry the empty string. *)
Theorem optional_fields_degrade (m : gmap string json) (attendance : json) :
  mandatory_fields m ->
  m !! "phq_attendance" = Some attendance ->
  optional_fields m ->
  exists row,
    event_row (JObj m) = Ok row /\
    (attendance = JNull -> PHQ_Attendance row = JInt 0) /\
    (absent_or_null m "predicted_end" -> Predicted_End_Date row = ""%string) /\
    (m !! "geo" = None \/
     (exists g, m !! "geo" = Some (JObj g) /\ g !! "placekey" = None) ->
     Placekey row = JStr "") /\
    (absent_or_null m "predicted_event_spend" ->
     Predicted_Event_Spend row = ""%string) /\
    (m !! "predicted_event_spend_industries" = None \/
     (exists ind, m !! "predicted_event_spend_industries" = Some (JObj ind) /\
                  ind !! "hospitality" = Some JNull) ->
     Predicted_Event_Spend_Hospitality row = ""%string).
Proof.
  intros ([title Ht] & [category Hc] & [start Hs] & [end_ He]
          & (ents & venue & name & address & Hents & Hv & Hn & Ha))
         Hatt (Hpe & Hgeo & Hsp & Hind).
  assert (exists pe, predicted_end_cell (JObj m) = Ok pe) as [pe Hpe'].
  { destruct Hpe as [Hpe|[s Hpe]].
    - eexists. by apply predicted_end_cell_blank.
    - destruct (local_time_not_null _ _ _ Hpe) as (x & Hx & Hnn).
      exists s. by rewrite (predicted_end_cell_filled _ _ Hx Hnn). }
  assert (exists pk, placekey_cell (JObj m) = Ok pk) as [pk Hpk].
  { destruct Hgeo as [Hgeo|[g Hgeo]]; eexists.
    - by apply placekey_cell_no_geo.
    - by apply placekey_cell_geo. }
  assert (exists sp, spend_cell (JObj m) = Ok sp) as [sp Hsp'].
  { destruct Hsp as [Hsp|(x & s & Hx & Hd)].
    - eexists. by apply spend_cell_blank.
    - exists s. rewrite (spend_cell_filled _ _ Hx); [done|].
      by eapply dollars_not_null. }
  assert (exists ho, hospitality_cell (JObj m) = Ok ho) as [ho Hho].
  { destruct Hind as [Hind|(ind & Hind & [Hx|(x & s & Hx & Hd)])].
    - eexists. by apply hospitality_cell_no_industries.
    - eexists. by rewrite (hospitality_cell_entry _ _ _ Hind Hx).
    - exists s. rewrite (hospitality_cell_entry _ _ _ Hind Hx).
      by rewrite (is_none_false _ (dollars_not_null _ _ Hd)). }
  exists (mkrow title (if truthy attendance then attendance else JInt 0)
                category start end_ pe name address pk sp ho).
  split.
  { apply event_row_ok. exists (JArr ents), ents, venue. simpl.
    rewrite Hents, Ht, Hc. repeat split; try done.
    apply attendance_cell_ok. exists attendance. simpl. by rewrite Hatt. }
  simpl. repeat split.
  - by intros ->.
  - intros Hb. rewrite (predicted_end_cell_blank _ Hb) in Hpe'. congruence.
  - intros [Hg|(g & Hg & Hk)].
    + rewrite (placekey_cell_no_geo _ Hg) in Hpk. congruence.
    + rewrite (placekey_cell_geo _ _ Hg), Hk in Hpk. simpl in Hpk. congruence.
  - intros Hb. rewrite (spend_cell_blank _ Hb) in Hsp'. congruence.
  - intros [Hi|(ind & Hi & Hx)].
    + rewrite (hospitality_cell_no_industries _ Hi) in Hho. congruence.
    + rewrite (hospitality_cell_entry _ _ _ Hi Hx) in Hho. simpl in Hho.
      congruence.
Qed.

(** *** The venue and the order of the rows *)

Lemma eq_str_true (v : json) (s : string) : eq_str v s = true <-> v = JStr s.
Proof.
  destruct v; simpl; try (split; [discriminate | congruence]).
  rewrite String.eqb_eq. split; congruence.
Qed.

Lemma eq_str_false (v : json) (s : string) : eq_str v s = false <-> v <> JStr s.
Proof.
  rewrite <- eq_str_true. destruct (eq_str v s); split; congruence.
Qed.

Lemma first_venue_none (ents : list json) :
  Forall other_entity ents -> first_venue ents = Ok JNull.
Proof.
  induction 1 as [|e ents (ty & Hty & Hne) _ IH]; simpl; [done|].
  rewrite Hty. simpl. apply eq_str_false in Hne. by rewrite Hne.
Qed.

Lemma first_venue_found (pre post : list json) (v : json) :
  Forall other_entity pre -> is_venue v ->
  first_venue (pre ++ v :: post) = Ok v.
Proof.
  intros Hpre Hv. induction Hpre as [|e pre (ty & Hty & Hne) _ IH]; simpl.
  - by rewrite Hv.
  - rewrite Hty. simpl. apply eq_str_false in Hne. by rewrite Hne.
Qed.

Lemma venue_truthy (v : json) : is_venue v -> truthy v = true.
Proof.
  intros Hv. apply getitem_ok in Hv as (m & -> & Hm). simpl.
  apply negb_true_iff, bool_decide_eq_false. intros ->.
  by rewrite lookup_empty in Hm.
Qed.

Lemma venue_cell_venue (v : json) (key : string) :
  is_venue v -> venue_cell v key = getitem v key.
Proof.
  intros Hv. unfold venue_cell, if_else. simpl. by rewrite (venue_truthy _ Hv).
Qed.

Lemma event_row_venue (event : json) (row : EventRow) :
  event_row event = Ok row ->
  exists entities ents,
    getitem event "entities" = Ok entities /\ iter entities = Ok ents /\
    venue_columns ents row.
Proof.
  intros Hrow. apply event_row_ok in Hrow
    as (entities & ents & venue & He & Hi & Hv & _ & _ & _ & _ & _ & _
        & Hn & Ha & _).
  exists entities, ents. split; [done|]. split; [done|]. split.
  - intros pre v post -> Hpre Hven.
    rewrite (first_venue_found _ _ _ Hpre Hven) in Hv. injection Hv as <-.
    by rewrite <- !(venue_cell_venue _ _ Hven).
  - intros Hnone. rewrite (first_venue_none _ Hnone) in Hv. injection Hv as <-.
    injection Hn as <-. by injection Ha as <-.
Qed.

Lemma all_rows (evs : list json) :
  Forall (fun e => exists r, event_row e = Ok r) evs ->
  exists rows, Forall2 (fun e r => event_row e = Ok r) evs rows.
Proof.
  induction 1 as [|e evs' [r He] _ [rows IH]].
  - exists []. constructor.
  - exists (r :: rows). by constructor.
Qed.

(** C7: on a list of records, [show_events_list] returns rows as soon as
    every record has one, and then the table has exactly one row per
    record, the [i]-th row being the row of the [i]-th record; the venue
    columns of a row hold the name and address of the first entity of type
    ["venue"] of its record, and empty strings when there is none. *)
Theorem rows_follow_events (events : json) (evs : list json) :
  getitem events "results" = Ok (JArr evs) ->
  (Forall (fun e => exists r, event_row e = Ok r) evs ->
   exists rows, show_events_list events = Ok rows) /\
  (forall rows,
     show_events_list events = Ok rows ->
     length rows = length evs /\
     forall i e,
       evs !! i = Some e ->
       exists r entities ents,
         rows !! i = Some r /\ event_row e = Ok r /\
         getitem e "entities" = Ok entities /\ iter entities = Ok ents /\
         venue_columns ents r).
Proof.
  intros Hr. split.
  - intros Hall.
    destruct (all_rows _ Hall) as [rows Hrows]. exists rows. by apply (show_events_list_ok _ _ _ Hr).
  - intros rows Hrows. apply (show_events_list_ok _ _ _ Hr) in Hrows. split.
    + symmetry. by eapply Forall2_length.
    + intros i e Hi.
      destruct (Forall2_lookup_l _ _ _ _ _ Hrows Hi) as (r & Hri & Hok).
      destruct (event_row_venue _ _ Hok) as (entities & ents & He & Hit & Hv).
      exists r, entities, ents. eauto 10.
Qed.

(** *** Local times *)

Lemma local_time_at (m : gmap string json) (key str z : string)
    (t : instant) (tz : tzinfo) :
  m !! key = Some (JStr str) -> parse_date str = Ok t ->
  m !! "timezone" = Some (JStr z) -> pytz_timezone z = Ok tz ->
  local_time (JObj m) key
  = let* dt := astimezone t tz in Ok (strftime_dby_HM dt).
Proof.
  intros Hk Ht Hz Htz. unfold local_time. simpl. rewrite Hk. simpl.
  rewrite Ht. simpl. rewrite Hz. simpl. by rewrite Htz.
Qed.


(** *** Currency *)

(** C5, as the code has it: a spend of 1234.5 is rendered ["$1,234"]: a
    float is written as a dollar sign, its sign, and the comma-grouped
    digits of its exact value rounded to the nearest whole dollar with ties
    going to the even neighbour, without decimals (so 1235.5 gives
    ["$1,236"] and 1234.75 ["$1,235"]); a null spend is rendered [""]. *)
Theorem spend_is_whole_dollars (m : gmap string json) (row : EventRow) :
  event_row (JObj m) = Ok row ->
  (forall f sign mant e,
     m !! "predicted_event_spend" = Some (JFloat f) ->
     Prim2SF f = S754_finite sign mant e ->
     Predicted_Event_Spend row
     = ("$" ++ sign_prefix sign
        ++ string_of_list_ascii
             (group_thousands (digits (round_half_even mant e))))%string) /\
  (m !! "predicted_event_spend" = Some (JFloat 1234.5) ->
   Predicted_Event_Spend row = "$1,234"%string) /\
  (m !! "predicted_event_spend" = Some (JFloat 1235.5) ->
   Predicted_Event_Spend row = "$1,236"%string) /\
  (m !! "predicted_event_spend" = Some (JFloat 1234.75) ->
   Predicted_Event_Spend row = "$1,235"%string) /\
  (m !! "predicted_event_spend" = Some JNull ->
   Predicted_Event_Spend row = ""%string).
Proof.
  intros Hrow. apply event_row_ok in Hrow
    as (_ & _ & _ & _ & _ & _ & _ & _ & _ & _ & _ & _ & _ & _ & _ & Hsp & _).
  split_and!.
  - intros f sign mant e Hm Hf.
    rewrite (spend_cell_filled _ _ Hm) in Hsp by done.
    unfold dollars, format_comma_0f, float_comma_0f in Hsp. rewrite Hf in Hsp.
    simpl in Hsp. by injection Hsp as <-.
  - intros Hm. rewrite (spend_cell_filled _ _ Hm) in Hsp by done.
    by cell_value Hsp.
  - intros Hm. rewrite (spend_cell_filled _ _ Hm) in Hsp by done.
    by cell_value Hsp.
  - intros Hm. rewrite (spend_cell_filled _ _ Hm) in Hsp by done.
    by cell_value Hsp.
  - intros Hm. rewrite spend_cell_blank in Hsp by (by right). congruence.
Qed.

End FormatterFacts.

(** ** Insight assembly *)

Section InsightFacts.

Context {libs : Libraries} {svc : Services}.

(** The calls of a run that completes, in terms of the place, the clock
    and the configuration. *)
Lemma show_location_insights_calls (env : Env) (place_id : string)
    (out : Insights) :
  show_location_insights env place_id = Ok out ->
  exists lat lon date_to radius radius_unit,
    date_add_days (now_date env) 90 = Ok date_to /\
    radius_call out
    = mkradius_search (lat, lon) "mi" (suggested_radius_industry env) /\
    radius_search (radius_call out) = Ok (radius, radius_unit) /\
    metrics_call out
    = mkshow_metrics lat lon radius radius_unit (now_date env) date_to
                     (radius, radius_unit) "UTC" /\
    events_call out
    = mkfetch_events lat lon radius (now_date env) date_to "UTC"
                     ATTENDED_CATEGORIES radius_unit /\
    map_radius_meters (map_call out) = calc_meters radius radius_unit.
Proof.
  unfold show_location_insights. intros H.
  repeat (apply bind_ok in H; destruct H as (? & ? & H)).
  match goal with
  | Hf : fetch_suggested_radius _ _ _ _ = Ok ?x |- _ =>
      destruct x as [call [radius radius_unit]];
      unfold fetch_suggested_radius in Hf;
      apply bind_ok in Hf as (answer & Hsearch & Hcall);
      injection Hcall as Hcall Hanswer; subst call answer
  end.
  repeat (apply bind_ok in H; destruct H as (? & ? & H)).
  injection H as <-. simpl in *. eauto 20.
Qed.


(** C9: in a run that completes, the radius is asked for with the
    industry found under [suggested_radius_industry] in the configuration
    when there is one, whatever its value, and with ["accommodation"] when
    the key is absent; the unit asked for is ["mi"], and the suggestion
    shown is the answer to that request. *)
Theorem radius_industry_default (env : Env) (place_id : string)
    (out : Insights) :
  show_location_insights env place_id = Ok out ->
  (secrets env !! "suggested_radius_industry" = None ->
   rs_industry (radius_call out) = JStr "accommodation") /\
  (forall v,
     secrets env !! "suggested_radius_industry" = Some v ->
     rs_industry (radius_call out) = v) /\
  rs_radius_unit (radius_call out) = "mi"%string /\
  radius_search (radius_call out)
  = Ok (sm_suggested_radius (metrics_call out)).
Proof.
  intros Hout.
  apply show_location_insights_calls in Hout
    as (lat & lon & date_to & radius & radius_unit & _ & Hc & Hs & Hm & _).
  rewrite Hs, Hc, Hm. simpl. unfold suggested_radius_industry.
  split_and!; try done.
  - by intros ->.
  - by intros v ->.
Qed.

End InsightFacts.

(** ** Unit normalizer *)

(** C4: [calc_meters] multiplies by 1609 for ["mi"], by 0.3048 for ["ft"]
    and by 1000 for ["km"], and returns the value itself for every other
    unit string; the product is returned as computed, with no rounding
    step of its own. *)
Theorem calc_meters_table (v : float) (unit : string) :
  calc_meters v "mi" = (v * 1609)%float /\
  calc_meters v "ft" = (v * 0.3048)%float /\
  calc_meters v "km" = (v * 1000)%float /\
  (unit <> "mi" -> unit <> "ft" -> unit <> "km" -> calc_meters v unit = v).
Proof.
  repeat split. intros Hmi Hft Hkm. unfold calc_meters.
  apply String.eqb_neq in Hmi, Hft, Hkm. by rewrite Hmi, Hft, Hkm.
Qed.

(** ** The model at work on sample records *)

(** A batch whose second record has no [category]. *)
Lemma missing_title_or_category_is_fatal_witness :
  let events := Sample.batch [Sample.full_event; Sample.without "category"] in
  raises (Sample.rows events) /\ forall rows, Sample.rows events <> Ok rows.
Proof.
  apply (@missing_title_or_category_is_fatal
           Sample.libraries _
           [Sample.full_event; Sample.without "category"]
           (delete "category" Sample.full_record)).
  - reflexivity.
  - right. left.
  - right. vm_compute. reflexivity.
Defined.

(** A batch whose first record has no [timezone]. *)
Lemma missing_subscripted_key_is_fatal_witness :
  let events := Sample.batch [Sample.without "timezone"; Sample.full_event] in
  raises (Sample.rows events) /\ forall rows, Sample.rows events <> Ok rows.
Proof.
  apply (@missing_subscripted_key_is_fatal
           Sample.libraries _
           [Sample.without "timezone"; Sample.full_event]
           (delete "timezone" Sample.full_record) "timezone").
  - reflexivity.
  - left.
  - right. right. left.
  - vm_compute. reflexivity.
Defined.

(** A radius of 2.5 in each unit. *)
Lemma calc_meters_table_witness :
  calc_meters 2.5 "mi" = 4022.5%float /\
  calc_meters 2.5 "ft" = 0.762%float /\
  calc_meters 2.5 "km" = 2500%float /\
  calc_meters 2.5 "m" = 2.5%float.
Proof.
  destruct (calc_meters_table 2.5 "m") as (Hmi & Hft & Hkm & Hm).
  split; [exact Hmi|]. split; [exact Hft|]. split; [exact Hkm|].
  apply Hm; apply String.eqb_neq; reflexivity.
Defined.

(** The rows of the two sample records. *)
Lemma full_event_row : Sample.row Sample.full_event = Ok Sample.full_row.
Proof. vm_compute. reflexivity. Qed.

Lemma bare_event_row : Sample.row Sample.bare_event = Ok Sample.bare_row.
Proof. vm_compute. reflexivity. Qed.

(** [bare_record] meets the conditions of [optional_fields_degrade]. *)
Lemma bare_record_mandatory :
  @mandatory_fields Sample.libraries Sample.bare_record.
Proof.
  unfold mandatory_fields. split_and!.
  - eexists. vm_compute. reflexivity.
  - eexists. vm_compute. reflexivity.
  - eexists. vm_compute. reflexivity.
  - eexists. vm_compute. reflexivity.
  - exists [Sample.speaker], JNull, (JStr ""), (JStr "").
    split_and!; vm_compute; reflexivity.
Defined.

Lemma bare_record_optional :
  @optional_fields Sample.libraries Sample.bare_record.
Proof.
  unfold optional_fields, absent_or_null. split_and!.
  - left. right. vm_compute. reflexivity.
  - left. vm_compute. reflexivity.
  - left. right. vm_compute. reflexivity.
  - right. exists (list_to_map [("hospitality", JNull)]).
    split; [|left]; vm_compute; reflexivity.
Defined.

(** The row of [bare_event] holds the five placeholders. *)
Lemma optional_fields_degrade_witness :
  exists row,
    Sample.row Sample.bare_event = Ok row /\
    PHQ_Attendance row = JInt 0 /\
    Predicted_End_Date row = ""%string /\
    Placekey row = JStr "" /\
    Predicted_Event_Spend row = ""%string /\
    Predicted_Event_Spend_Hospitality row = ""%string.
Proof.
  destruct (@optional_fields_degrade Sample.libraries Sample.bare_record JNull)
    as (row & Hrow & Hatt & Hpe & Hpk & Hsp & Hho).
  - exact bare_record_mandatory.
  - vm_compute. reflexivity.
  - exact bare_record_optional.
  - exists row. split; [exact Hrow|]. split; [by apply Hatt|].
    split; [apply Hpe; right; vm_compute; reflexivity|].
    split; [apply Hpk; left; vm_compute; reflexivity|].
    split; [apply Hsp; right; vm_compute; reflexivity|].
    apply Hho. right. exists (list_to_map [("hospitality", JNull)]).
    split; vm_compute; reflexivity.
Defined.

(** The record with the mandatory fields and every optional field but
    [phq_attendance] has no row; a null [geo] raises as well, and a null
    [placekey] is copied into the row, not blanked. *)
Lemma absent_attendance_or_null_geo_not_defaulted :
  @mandatory_fields Sample.libraries (delete "phq_attendance" Sample.full_record)
  /\ delete "phq_attendance" Sample.full_record !! "phq_attendance" = None
  /\ Sample.row (Sample.without "phq_attendance")
     = Raise (KeyError "phq_attendance")
  /\ Sample.rows (Sample.batch [Sample.without "phq_attendance"])
     = Raise (KeyError "phq_attendance")
  /\ Sample.row (Sample.with_field "geo" JNull) = Raise TypeError
  /\ (exists row,
        Sample.row (Sample.with_field "geo" (Sample.obj [("placekey", JNull)]))
        = Ok row /\
        Placekey row = JNull /\ Placekey row <> JStr "").
Proof.
  split_and!; try (vm_compute; reflexivity).
  - unfold mandatory_fields. split_and!; try (eexists; vm_compute; reflexivity).
    exists [Sample.speaker; Sample.arena], Sample.arena, (JStr "Arena"),
           (JStr "1 Main St").
    split_and!; vm_compute; reflexivity.
  - eexists. split; [vm_compute; reflexivity|]. split; [reflexivity|].
    discriminate.
Qed.

(** C3: with [predicted_event_spend_industries] present and no
    [hospitality] key in it, the hospitality entry raises [KeyError], and
    with it the row and the whole call, while the sibling [geo] lookup
    returns the empty string for a [geo] object without [placekey]. *)
Theorem hospitality_key_absent_raises :
  hospitality_cell Sample.no_hospitality_event = Raise (KeyError "hospitality")
  /\ Sample.row Sample.no_hospitality_event = Raise (KeyError "hospitality")
  /\ Sample.rows (Sample.batch [Sample.full_event; Sample.no_hospitality_event])
     = Raise (KeyError "hospitality")
  /\ placekey_cell (Sample.with_field "geo" (Sample.obj [])) = Ok (JStr "").
Proof. split_and!; vm_compute; reflexivity. Qed.

(** A spend of 1234.5 is not rendered ["$1,235"]. *)
Lemma spend_1234_5_is_not_1235 :
  Sample.full_record !! "predicted_event_spend" = Some (JFloat 1234.5) /\
  exists row,
    Sample.row Sample.full_event = Ok row /\
    Predicted_Event_Spend row = "$1,234"%string /\
    Predicted_Event_Spend row <> "$1,235"%string.
Proof.
  split; [vm_compute; reflexivity|].
  exists Sample.full_row. split; [exact full_event_row|].
  split; [reflexivity | discriminate].
Qed.

(** The spend cells of the two sample rows. *)
Lemma spend_is_whole_dollars_witness :
  Predicted_Event_Spend Sample.full_row = "$1,234"%string /\
  Predicted_Event_Spend Sample.bare_row = ""%string.
Proof.
  destruct (@spend_is_whole_dollars Sample.libraries Sample.full_record
              Sample.full_row full_event_row) as (_ & Hfull & _).
  destruct (@spend_is_whole_dollars Sample.libraries Sample.bare_record
              Sample.bare_row bare_event_row) as (_ & _ & _ & _ & Hbare).
  split; [apply Hfull | apply Hbare]; vm_compute; reflexivity.
Defined.


(** Two records in, their two rows out, in that order. *)
Lemma rows_follow_events_witness :
  Sample.rows (Sample.batch [Sample.full_event; Sample.bare_event])
  = Ok [Sample.full_row; Sample.bare_row] /\
  length [Sample.full_row; Sample.bare_row] = 2%nat /\
  exists r entities ents,
    [Sample.full_row; Sample.bare_row] !! 1%nat = Some r /\
    Sample.row Sample.bare_event = Ok r /\
    getitem Sample.bare_event "entities" = Ok entities /\
    iter entities = Ok ents /\ venue_columns ents r.
Proof.
  assert (Sample.rows (Sample.batch [Sample.full_event; Sample.bare_event])
          = Ok [Sample.full_row; Sample.bare_row]) as Hrows
    by (vm_compute; reflexivity).
  destruct (@rows_follow_events Sample.libraries
              (Sample.batch [Sample.full_event; Sample.bare_event])
              [Sample.full_event; Sample.bare_event] eq_refl)
    as [_ Hspec].
  destruct (Hspec _ Hrows) as [Hlen Hnth].
  split; [exact Hrows|]. split; [exact Hlen|].
  exact (Hnth 1%nat Sample.bare_event eq_refl).
Defined.


(** A run without the configuration key, and one with it. *)
Lemma radius_industry_default_witness :
  (exists out,
     Sample.run (Sample.env (mkdate 2024 3 1) ∅) = Ok out /\
     rs_industry (radius_call out) = JStr "accommodation") /\
  (exists out,
     Sample.run (Sample.env (mkdate 2024 3 1)
                            {["suggested_radius_industry" := JStr "parking"]})
     = Ok out /\
     rs_industry (radius_call out) = JStr "parking").
Proof.
  split.
  - destruct (Sample.run (Sample.env (mkdate 2024 3 1) ∅))
      as [out|err] eqn:Hrun.
    + exists out. split; [reflexivity|].
      destruct (@radius_industry_default Sample.libraries Sample.services
                  (Sample.env (mkdate 2024 3 1) ∅) "place-1" out Hrun)
        as (Habsent & _).
      apply Habsent. vm_compute. reflexivity.
    + vm_compute in Hrun. discriminate Hrun.
  - destruct (Sample.run
                (Sample.env (mkdate 2024 3 1)
                            {["suggested_radius_industry" := JStr "parking"]}))
      as [out|err] eqn:Hrun.
    + exists out. split; [reflexivity|].
      destruct (@radius_industry_default Sample.libraries Sample.services
                  (Sample.env (mkdate 2024 3 1)
                              {["suggested_radius_industry" := JStr "parking"]})
                  "place-1" out Hrun)
        as (_ & Hpresent & _).
      apply Hpresent. vm_compute. reflexivity.
    + vm_compute in Hrun. discriminate Hrun.
Defined.

(** * Further properties of the formatter *)

Lemma string_length_app (s1 s2 : string) :
  String.length (s1 ++ s2) = (String.length s1 + String.length s2)%nat.
Proof. induction s1 as [|c s1 IH]; simpl; [done | by rewrite IH]. Qed.

Lemma string_length_of_list (l : list ascii) :
  String.length (string_of_list_ascii l) = length l.
Proof. induction l as [|c l IH]; simpl; [done | by rewrite IH]. Qed.

Lemma two_digit_width :
  forallb (fun k => Nat.eqb (length (zfill 2 (digits (Z.of_nat k)))) 2)
          (seq 0 100) = true.
Proof. vm_compute. reflexivity. Qed.

Lemma four_digit_width :
  forallb (fun k => Nat.eqb (length (zfill 4 (digits (Z.of_nat k)))) 4)
          (seq 0 (Z.to_nat 10000)) = true.
Proof. vm_compute. reflexivity. Qed.

Lemma zfill2_length (n : Z) :
  0 <= n < 100 -> length (zfill 2 (digits n)) = 2%nat.
Proof.
  intros Hn. pose proof two_digit_width as Hall.
  rewrite forallb_forall in Hall. specialize (Hall (Z.to_nat n)).
  rewrite Z2Nat.id in Hall by lia. apply Nat.eqb_eq, Hall, in_seq. lia.
Qed.

Lemma zfill4_length (n : Z) :
  0 <= n < 10000 -> length (zfill 4 (digits n)) = 4%nat.
Proof.
  intros Hn. pose proof four_digit_width as Hall.
  rewrite forallb_forall in Hall. specialize (Hall (Z.to_nat n)).
  rewrite Z2Nat.id in Hall by lia. apply Nat.eqb_eq, Hall, in_seq. lia.
Qed.

Lemma month_abbr_length (mo : Z) :
  1 <= mo <= 12 -> String.length (nth (Z.to_nat mo) MONTH_ABBR "") = 3%nat.
Proof.
  intros Hmo.
  assert (mo = 1 \/ mo = 2 \/ mo = 3 \/ mo = 4 \/ mo = 5 \/ mo = 6 \/
          mo = 7 \/ mo = 8 \/ mo = 9 \/ mo = 10 \/ mo = 11 \/ mo = 12)
    as Hcases by lia.
  repeat (destruct Hcases as [->|Hcases]; [reflexivity|]). by subst mo.
Qed.

Lemma days_in_month_le_31 (y mo : Z) : 1 <= mo <= 12 -> days_in_month y mo <= 31.
Proof.
  intros Hmo. unfold days_in_month.
  assert (mo = 1 \/ mo = 2 \/ mo = 3 \/ mo = 4 \/ mo = 5 \/ mo = 6 \/
          mo = 7 \/ mo = 8 \/ mo = 9 \/ mo = 10 \/ mo = 11 \/ mo = 12)
    as Hcases by lia.
  destruct (is_leap y);
    repeat (destruct Hcases as [Hcases|Hcases]); subst mo; vm_compute;
    discriminate.
Qed.

(** A rendered wall clock is 17 characters wide. *)
Lemma strftime_width (local : Z) (dt : datetime) :
  wall_clock local dt -> String.length (strftime_dby_HM dt) = 17%nat.
Proof.
  intros ((Hy & Hm & Hd) & Hh & Hmi & _). unfold strftime_dby_HM.
  pose proof (days_in_month_le_31 (year (dt_date dt)) _ Hm) as Hd31.
  rewrite !string_length_app, !string_length_of_list.
  rewrite !zfill2_length, zfill4_length, month_abbr_length by lia.
  reflexivity.
Qed.

Lemma strftime_nonempty (dt : datetime) : strftime_dby_HM dt <> ""%string.
Proof.
  unfold strftime_dby_HM.
  destruct (string_of_list_ascii (zfill 2 (digits (day (dt_date dt)))));
    discriminate.
Qed.

Lemma dollars_nonempty (x : json) (s : string) :
  dollars x = Ok s -> s <> ""%string.
Proof.
  unfold dollars. intros H. apply bind_ok in H as (t & _ & [= <-]).
  discriminate.
Qed.

Lemma null_or_not (x : json) : x = JNull \/ x <> JNull.
Proof. destruct x; [by left | by right ..]. Qed.

Lemma getitem_insert_eq (m : gmap string json) (key : string) (x : json) :
  getitem (JObj (<[key := x]> m)) key = Ok x.
Proof. simpl. by rewrite lookup_insert_eq. Qed.

Lemma getitem_insert_ne (m : gmap string json) (key key' : string) (x : json) :
  key <> key' ->
  getitem (JObj (<[key := x]> m)) key' = getitem (JObj m) key'.
Proof. intros Hne. simpl. by rewrite lookup_insert_ne. Qed.

Lemma contains_insert_ne (m : gmap string json) (key key' : string) (x : json) :
  key <> key' ->
  contains key' (JObj (<[key := x]> m)) = contains key' (JObj m).
Proof. intros Hne. simpl. by rewrite lookup_insert_ne. Qed.

Lemma first_venue_malformed (pre rest : list json) (bad : gmap string json) :
  Forall other_entity pre -> bad !! "type" = None ->
  first_venue (pre ++ JObj bad :: rest) = Raise (KeyError "type").
Proof.
  intros Hpre Hbad. induction Hpre as [|e pre (ty & Hty & Hne) _ IH]; simpl.
  - by rewrite Hbad.
  - rewrite Hty. simpl. apply eq_str_false in Hne. by rewrite Hne.
Qed.

Lemma digits_no_comma (n : Z) :
  Forall (fun c => Ascii.eqb c "," = false) (digits n).
Proof.
  unfold digits. induction (N.to_uint (Z.to_N n)); simpl; by constructor.
Qed.

Section FormatterMore.

Context {libs : Libraries}.

Lemma for_events_first_failure (good rest : list json) (bad : json)
    (err : exn) (results : list EventRow) :
  Forall (fun e => exists r, event_row e = Ok r) good ->
  event_row bad = Raise err ->
  for_events (good ++ bad :: rest) results = Raise err.
Proof.
  intros Hgood Hbad. revert results.
  induction Hgood as [|e good [r He] _ IH]; intros results; simpl.
  - by rewrite Hbad.
  - rewrite He. simpl. apply IH.
Qed.

(** X1: the attendance cell of a row is the integer 0 or a value that
    counts as true: a null, zero, empty or false [phq_attendance] never
    reaches the table. *)
Theorem attendance_is_zero_or_truthy (event : json) (row : EventRow) :
  event_row event = Ok row ->
  (PHQ_Attendance row = JInt 0 \/ truthy (PHQ_Attendance row) = true) /\
  PHQ_Attendance row <> JNull.
Proof.
  intros Hrow. apply event_row_ok in Hrow
    as (_ & _ & _ & _ & _ & _ & _ & Ha & _).
  apply attendance_cell_ok in Ha as (x & _ & ->).
  destruct (truthy x) eqn:Hx.
  - split; [by right|]. intros ->. discriminate.
  - split; [by left | discriminate].
Qed.

(** X2: the call raises the exception of the first record that has no row,
    whatever follows that record. *)
Theorem first_failing_record_decides (events : json)
    (good rest : list json) (bad : json) (err : exn) :
  getitem events "results" = Ok (JArr (good ++ bad :: rest)) ->
  Forall (fun e => exists r, event_row e = Ok r) good ->
  event_row bad = Raise err ->
  show_events_list events = Raise err.
Proof.
  intros Hr Hgood Hbad. unfold show_events_list. rewrite Hr. simpl.
  by apply for_events_first_failure.
Qed.

(** X3: the table of two batches put end to end is the table of the first
    followed by the table of the second: a row depends on its own record
    only. *)
Theorem batches_concatenate (b1 b2 b : json) (evs1 evs2 : list json)
    (rows1 rows2 : list EventRow) :
  getitem b1 "results" = Ok (JArr evs1) ->
  getitem b2 "results" = Ok (JArr evs2) ->
  getitem b "results" = Ok (JArr (evs1 ++ evs2)) ->
  show_events_list b1 = Ok rows1 ->
  show_events_list b2 = Ok rows2 ->
  show_events_list b = Ok (rows1 ++ rows2).
Proof.
  intros H1 H2 H Hr1 Hr2.
  apply (show_events_list_ok _ _ _ H1) in Hr1.
  apply (show_events_list_ok _ _ _ H2) in Hr2.
  apply (show_events_list_ok _ _ _ H). by apply Forall2_app.
Qed.

(** X4: the entities that follow the first venue are never looked at: two
    records that differ only there have the same row, or raise alike. *)
Theorem entities_after_venue_ignored (m : gmap string json)
    (pre post post' : list json) (v : json) :
  Forall other_entity pre -> is_venue v ->
  event_row (JObj (<["entities" := JArr (pre ++ v :: post)]> m))
  = event_row (JObj (<["entities" := JArr (pre ++ v :: post')]> m)).
Proof.
  intros Hpre Hv. unfold event_row.
  rewrite !getitem_insert_eq. cbn [bind iter].
  rewrite !(first_venue_found _ _ _ Hpre Hv). cbn [bind].
  unfold attendance_cell, predicted_end_cell, placekey_cell, spend_cell,
    hospitality_cell, local_time.
  rewrite !getitem_insert_ne, !contains_insert_ne by done. reflexivity.
Qed.

(** X5: an entity without a [type] key that comes before the first venue
    makes the record raise [KeyError]. *)
Theorem malformed_entity_before_venue_is_fatal (m bad : gmap string json)
    (pre rest : list json) :
  m !! "entities" = Some (JArr (pre ++ JObj bad :: rest)) ->
  Forall other_entity pre -> bad !! "type" = None ->
  event_row (JObj m) = Raise (KeyError "type").
Proof.
  intros Hm Hpre Hbad. unfold event_row. simpl. rewrite Hm. simpl.
  by rewrite (first_venue_malformed _ _ _ Hpre Hbad).
Qed.

(** X6: in a row, the predicted end and the two spend cells are blank
    exactly when their field is absent or null (for the hospitality cell:
    when the industries object is absent or its [hospitality] entry is
    null). *)
Theorem blank_cells_iff_absent_or_null (m : gmap string json) (row : EventRow) :
  event_row (JObj m) = Ok row ->
  (Predicted_End_Date row = ""%string <-> absent_or_null m "predicted_end") /\
  (Predicted_Event_Spend row = ""%string <->
   absent_or_null m "predicted_event_spend") /\
  (Predicted_Event_Spend_Hospitality row = ""%string <->
   m !! "predicted_event_spend_industries" = None \/
   exists ind, m !! "predicted_event_spend_industries" = Some (JObj ind) /\
               ind !! "hospitality" = Some JNull).
Proof.
  intros Hrow. apply event_row_ok in Hrow
    as (_ & _ & _ & _ & _ & _ & _ & _ & _ & _ & _ & Hpe & _ & _ & _ & Hsp & Hho).
  split_and!; split.
  - intros Hblank. destruct (m !! "predicted_end") as [x|] eqn:Hx; [|by left].
    destruct (null_or_not x) as [->|Hnn]; [by right|].
    rewrite (predicted_end_cell_filled _ _ Hx Hnn), Hblank in Hpe.
    apply local_time_ok in Hpe as (? & ? & ? & ? & ? & dt & _ & _ & _ & _ & _ & _ & Hdt).
    by destruct (strftime_nonempty dt).
  - intros Hb. rewrite (predicted_end_cell_blank _ Hb) in Hpe. congruence.
  - intros Hblank.
    destruct (m !! "predicted_event_spend") as [x|] eqn:Hx; [|by left].
    destruct (null_or_not x) as [->|Hnn]; [by right|].
    rewrite (spend_cell_filled _ _ Hx Hnn), Hblank in Hsp.
    by destruct (dollars_nonempty _ _ Hsp).
  - intros Hb. rewrite (spend_cell_blank _ Hb) in Hsp. congruence.
  - intros Hblank.
    destruct (m !! "predicted_event_spend_industries") as [v|] eqn:Hv;
      [|by left].
    right. unfold hospitality_cell, if_else, and_then in Hho. simpl in Hho.
    rewrite Hv in Hho. simpl in Hho.
    destruct v as [| | | | | |ind]; try discriminate. simpl in Hho.
    destruct (ind !! "hospitality") as [x|] eqn:Hx; [|discriminate].
    exists ind. split; [done|]. simpl in Hho.
    destruct x; simpl in Hho; try done;
      rewrite Hblank in Hho; by destruct (dollars_nonempty _ _ Hho).
  - intros [Hi|(ind & Hi & Hx)].
    + rewrite (hospitality_cell_no_industries _ Hi) in Hho. congruence.
    + rewrite (hospitality_cell_entry _ _ _ Hi Hx) in Hho. simpl in Hho.
      congruence.
Qed.

(** X7: the placekey cell of a row is either blank or, untouched, the
    value stored under [placekey] in the record's [geo] object. *)
Theorem placekey_blank_or_copied (m : gmap string json) (row : EventRow) :
  event_row (JObj m) = Ok row ->
  Placekey row = JStr "" \/
  exists geo, m !! "geo" = Some (JObj geo) /\
              geo !! "placekey" = Some (Placekey row).
Proof.
  intros Hrow. apply event_row_ok in Hrow
    as (_ & _ & _ & _ & _ & _ & _ & _ & _ & _ & _ & _ & _ & _ & Hpk & _).
  destruct (m !! "geo") as [v|] eqn:Hv.
  - unfold placekey_cell, if_else, and_then in Hpk. simpl in Hpk.
    rewrite Hv in Hpk. simpl in Hpk.
    destruct v as [| | | |s|l|geo]; try discriminate; simpl in Hpk.
    + destruct (substring_of "placekey" s); [discriminate|].
      left. congruence.
    + destruct (existsb _ l); [discriminate|]. left. congruence.
    + destruct (geo !! "placekey") as [x|] eqn:Hx; simpl in Hpk.
      * right. exists geo. split; congruence.
      * left. congruence.
  - rewrite (placekey_cell_no_geo _ Hv) in Hpk. left. congruence.
Qed.


(** X9: a predicted end that is present and not null is rendered like the
    start and the end: parsed, moved to the record's own zone and written
    as the wall clock of that zone; a value that is not a str has no row. *)
Theorem predicted_end_uses_record_zone (m : gmap string json) (row : EventRow)
    (x : json) :
  event_row (JObj m) = Ok row ->
  m !! "predicted_end" = Some x -> x <> JNull ->
  exists s z t tz dt,
    x = JStr s /\ m !! "timezone" = Some (JStr z) /\
    parse_date s = Ok t /\ pytz_timezone z = Ok tz /\
    wall_clock (t + tz t) dt /\
    Predicted_End_Date row = strftime_dby_HM dt.
Proof.
  intros Hrow Hx Hnn. apply event_row_ok in Hrow
    as (_ & _ & _ & _ & _ & _ & _ & _ & _ & _ & _ & Hpe & _).
  rewrite (predicted_end_cell_filled _ _ Hx Hnn) in Hpe.
  apply local_time_ok in Hpe
    as (? & s & z & t & tz & dt & [= <-] & Hs & Ht & Hz & Htz & Hdt & ->).
  exists s, z, t, tz, dt. split_and!; try done; [congruence|].
  by apply astimezone_ok.
Qed.

(** X10: nothing catches what the libraries raise: on a record whose
    earlier entries are fine, the exception of the parser on [start], or
    of the zone lookup on [timezone], is the exception of the record. *)
Theorem library_errors_propagate (m : gmap string json) (ents : list json)
    (venue : json) (s : string) (err : exn) :
  m !! "entities" = Some (JArr ents) -> first_venue ents = Ok venue ->
  is_Some (m !! "title") -> is_Some (m !! "phq_attendance") ->
  is_Some (m !! "category") -> m !! "start" = Some (JStr s) ->
  (parse_date s = Raise err -> event_row (JObj m) = Raise err) /\
  (forall t z,
     parse_date s = Ok t -> m !! "timezone" = Some (JStr z) ->
     pytz_timezone z = Raise err -> event_row (JObj m) = Raise err).
Proof.
  intros He Hv [title Ht] [att Ha] [cat Hc] Hs.
  assert (exists a, attendance_cell (JObj m) = Ok a) as [a Hcell].
  { eexists. apply attendance_cell_ok. exists att. simpl. by rewrite Ha. }
  split.
  - intros Hp. unfold event_row. simpl. rewrite He. simpl. rewrite Hv. simpl.
    rewrite Ht. simpl. rewrite Hcell. simpl. rewrite Hc. simpl.
    unfold local_time. simpl. rewrite Hs. simpl. by rewrite Hp.
  - intros t z Hp Hz Htz. unfold event_row. simpl. rewrite He. simpl.
    rewrite Hv. simpl. rewrite Ht. simpl. rewrite Hcell. simpl.
    rewrite Hc. simpl. unfold local_time. simpl. rewrite Hs. simpl.
    rewrite Hp. simpl. rewrite Hz. simpl. by rewrite Htz.
Qed.

(** X11: the spend cell of a finite float is a dollar sign, the sign, and
    the digits of a whole number in groups of three; without the commas
    the digits are those of the number, which is the float itself when it
    is whole and otherwise at most half a dollar away from it. *)
Theorem spend_within_half_a_dollar (m : gmap string json) (row : EventRow)
    (f : float) (sign : bool) (mant : positive) (e : Z) :
  event_row (JObj m) = Ok row ->
  m !! "predicted_event_spend" = Some (JFloat f) ->
  Prim2SF f = S754_finite sign mant e ->
  exists n,
    Predicted_Event_Spend row
    = ("$" ++ sign_prefix sign
       ++ string_of_list_ascii (group_thousands (digits n)))%string /\
    List.filter (fun c => negb (Ascii.eqb c ",")) (group_thousands (digits n))
    = digits n /\
    (0 <= e -> n = Z.pos mant * 2 ^ e) /\
    (e < 0 -> 2 * Z.abs (Z.pos mant - n * 2 ^ (- e)) <= 2 ^ (- e)).
Proof.
  intros Hrow Hm Hf. apply event_row_ok in Hrow
    as (_ & _ & _ & _ & _ & _ & _ & _ & _ & _ & _ & _ & _ & _ & _ & Hsp & _).
  rewrite (spend_cell_filled _ _ Hm) in Hsp by done.
  unfold dollars, format_comma_0f, float_comma_0f in Hsp. rewrite Hf in Hsp.
  simpl in Hsp. injection Hsp as <-.
  exists (round_half_even mant e). split_and!.
  - reflexivity.
  - apply group_thousands_keeps_digits, digits_no_comma.
  - intros He. unfold round_half_even.
    by replace (0 <=? e) with true by (symmetry; apply Z.leb_le; lia).
  - intros He. by apply round_half_even_nearest.
Qed.

End FormatterMore.

(** * Further properties of the assembly *)

Section InsightMore.

Context {libs : Libraries} {svc : Services}.

(** A run that completes, step by step. *)
Lemma show_location_insights_steps (env : Env) (place_id : string)
    (out : Insights) :
  show_location_insights env place_id = Ok out ->
  exists place_details name lat lon date_to radius radius_unit events rows,
    get_place_details place_id (google_session_token env) = Ok place_details /\
    resolved_place place_details name lat lon /\
    date_add_days (now_date env) 90 = Ok date_to /\
    radius_search
      (mkradius_search (lat, lon) "mi" (suggested_radius_industry env))
    = Ok (radius, radius_unit) /\
    fetch_events
      (mkfetch_events lat lon radius (now_date env) date_to "UTC"
                      ATTENDED_CATEGORIES radius_unit)
    = Ok events /\
    show_events_list events = Ok rows /\
    out
    = mkinsights
        (mkradius_search (lat, lon) "mi" (suggested_radius_industry env))
        name
        (mkshow_metrics lat lon radius radius_unit (now_date env) date_to
                        (radius, radius_unit) "UTC")
        (mkfetch_events lat lon radius (now_date env) date_to "UTC"
                        ATTENDED_CATEGORIES radius_unit)
        (mkshow_map lat lon (calc_meters radius radius_unit) events)
        rows.
Proof.
  unfold show_location_insights. intros H.
  apply bind_ok in H as (pd & Hpd & H).
  apply bind_ok in H as (r & Hr & H).
  apply bind_ok in H as (name & Hname & H).
  apply bind_ok in H as (r' & Hr' & H).
  apply bind_ok in H as (g & Hg & H).
  apply bind_ok in H as (l & Hl & H).
  apply bind_ok in H as (lat & Hlat & H).
  apply bind_ok in H as (r'' & Hr'' & H).
  apply bind_ok in H as (g' & Hg' & H).
  apply bind_ok in H as (l' & Hl' & H).
  apply bind_ok in H as (lon & Hlon & H).
  apply bind_ok in H as (date_to & Hto & H).
  apply bind_ok in H as ([call [radius radius_unit]] & Hf & H).
  unfold fetch_suggested_radius in Hf.
  apply bind_ok in Hf as (answer & Hsearch & Hcall).
  injection Hcall as Hcall Hanswer. subst call answer.
  apply bind_ok in H as (events & Hev & H).
  apply bind_ok in H as (rows & Hrows & H).
  injection H as <-.
  assert (r' = r) as -> by congruence. assert (r'' = r) as -> by congruence.
  assert (g' = g) as -> by congruence. assert (l' = l) as -> by congruence.
  exists pd, name, lat, lon, date_to, radius, radius_unit, events, rows.
  split_and!; try done. by exists r, g, l.
Qed.

Lemma run_resolves_place (env : Env) (place_id : string)
    (out : Insights) :
  show_location_insights env place_id = Ok out ->
  exists place_details lat lon,
    get_place_details place_id (google_session_token env) = Ok place_details /\
    resolved_place place_details (header_name out) lat lon.
Proof.
  intros H. apply show_location_insights_steps in H
    as (pd & name & lat & lon & ? & ? & ? & ? & ? & Hpd & Hplace & _ & _ & _ & _
        & ->).
  by exists pd, lat, lon.
Qed.

(** X12: in a run that completes, the place was asked for with the
    session token, the header shows its name, and the radius request, the
    metrics panel, the events query and the map all carry its latitude and
    longitude. *)
Theorem calls_share_the_resolved_place (env : Env) (place_id : string)
    (out : Insights) :
  show_location_insights env place_id = Ok out ->
  exists place_details lat lon,
    get_place_details place_id (google_session_token env) = Ok place_details /\
    resolved_place place_details (header_name out) lat lon /\
    location__origin (radius_call out) = (lat, lon) /\
    (sm_lat (metrics_call out) = lat /\ sm_lon (metrics_call out) = lon) /\
    (fe_lat (events_call out) = lat /\ fe_lon (events_call out) = lon) /\
    (map_lat (map_call out) = lat /\ map_lon (map_call out) = lon).
Proof.
  intros H. apply show_location_insights_steps in H
    as (pd & name & lat & lon & ? & ? & ? & ? & ? & Hpd & Hplace & _ & _ & _ & _
        & ->).
  exists pd, lat, lon. simpl. split_and!; done.
Qed.

(** X13: in a run that completes, the radius and the unit that the radius
    service answered, not the unit asked for, are the ones shown in the
    metrics, sent with the events query and converted to meters for the
    map. *)
Theorem advisor_answer_feeds_every_consumer (env : Env) (place_id : string)
    (out : Insights) :
  show_location_insights env place_id = Ok out ->
  exists radius radius_unit,
    radius_search (radius_call out) = Ok (radius, radius_unit) /\
    (sm_radius (metrics_call out) = radius /\
     sm_radius_unit (metrics_call out) = radius_unit) /\
    (fe_radius (events_call out) = radius /\
     fe_radius_unit (events_call out) = radius_unit) /\
    map_radius_meters (map_call out) = calc_meters radius radius_unit.
Proof.
  intros H. apply show_location_insights_steps in H
    as (? & ? & ? & ? & ? & radius & radius_unit & ? & ? & _ & _ & _ & Hs & _
        & _ & ->).
  exists radius, radius_unit. simpl. split_and!; done.
Qed.

(** X14: in a run that completes, the events drawn on the map are the
    answer to the events query, asked for the attended categories, and the
    table holds the rows of those same events. *)
Theorem table_and_map_show_fetched_events (env : Env) (place_id : string)
    (out : Insights) :
  show_location_insights env place_id = Ok out ->
  fe_categories (events_call out) = ATTENDED_CATEGORIES /\
  fetch_events (events_call out) = Ok (map_events (map_call out)) /\
  show_events_list (map_events (map_call out)) = Ok (events_table out).
Proof.
  intros H. apply show_location_insights_steps in H
    as (? & ? & ? & ? & ? & ? & ? & events & rows & _ & _ & _ & _ & Hev & Hrows
        & ->).
  simpl. split_and!; done.
Qed.

Lemma resolved_place_run (env : Env) (place_id : string)
    (place_details name lat lon : json) :
  get_place_details place_id (google_session_token env) = Ok place_details ->
  resolved_place place_details name lat lon ->
  show_location_insights env place_id
  = let* date_to := date_add_days (now_date env) 90 in
    let* ' (call, (radius, radius_unit)) :=
      fetch_suggested_radius lat lon (Some "mi"%string)
                             (Some (suggested_radius_industry env)) in
    let* events :=
      fetch_events
        (mkfetch_events lat lon radius (now_date env) date_to "UTC"
                        ATTENDED_CATEGORIES radius_unit) in
    let* rows := show_events_list events in
    Ok (mkinsights call name
          (mkshow_metrics lat lon radius radius_unit (now_date env) date_to
                          (radius, radius_unit) "UTC")
          (mkfetch_events lat lon radius (now_date env) date_to "UTC"
                          ATTENDED_CATEGORIES radius_unit)
          (mkshow_map lat lon (calc_meters radius radius_unit) events)
          rows).
Proof.
  intros Hpd (r & g & l & Hr & Hn & Hg & Hl & Hlat & Hlon).
  unfold show_location_insights. rewrite Hpd. cbn [bind].
  rewrite Hr. cbn [bind]. rewrite Hn. cbn [bind]. rewrite Hg. cbn [bind].
  rewrite Hl. cbn [bind]. rewrite Hlat. cbn [bind]. rewrite Hlon. cbn [bind].
  reflexivity.
Qed.


(** X16: a failure of the place lookup is the failure of the run, and a
    place answer without [result], or whose [result] has no [geometry],
    raises [KeyError]. *)
Theorem place_errors_are_fatal (env : Env) (place_id : string) :
  (forall err,
     get_place_details place_id (google_session_token env) = Raise err ->
     show_location_insights env place_id = Raise err) /\
  (forall p,
     get_place_details place_id (google_session_token env) = Ok (JObj p) ->
     p !! "result" = None ->
     show_location_insights env place_id = Raise (KeyError "result")) /\
  (forall p r name,
     get_place_details place_id (google_session_token env) = Ok (JObj p) ->
     p !! "result" = Some (JObj r) -> r !! "name" = Some name ->
     r !! "geometry" = None ->
     show_location_insights env place_id = Raise (KeyError "geometry")).
Proof.
  unfold show_location_insights. split_and!.
  - by intros err ->.
  - intros p -> Hp. simpl. by rewrite Hp.
  - intros p r name -> Hp Hn Hg. simpl. rewrite Hp. simpl. rewrite Hn. simpl.
    by rewrite Hg.
Qed.

(** X17: with fewer than 90 days left in the calendar after today the
    window cannot be built: the run raises [OverflowError] once the place
    is resolved, and asks neither for a radius nor for events. *)
Theorem window_needs_ninety_days_of_calendar (env : Env) (place_id : string)
    (place_details name lat lon : json) :
  get_place_details place_id (google_session_token env) = Ok place_details ->
  resolved_place place_details name lat lon ->
  MAXORDINAL < toordinal (now_date env) + 90 ->
  show_location_insights env place_id = Raise OverflowError.
Proof.
  intros Hpd Hplace Hlate.
  rewrite (resolved_place_run _ _ _ _ _ _ Hpd Hplace).
  unfold date_add_days.
  replace (toordinal (now_date env) + 90 <=? MAXORDINAL) with false
    by (symmetry; apply Z.leb_gt; lia).
  by rewrite andb_false_r.
Qed.

End InsightMore.

(** * Properties of the address lookup and of the entry point *)

Section LookupFacts.

Context {places : Places}.

Lemma candidate_ok (prediction : json) (c : string * json) :
  candidate prediction = Ok c <->
  exists description,
    getitem prediction "description" = Ok description /\
    getitem prediction "place_id" = Ok c.2 /\
    c.1 = py_str description.
Proof.
  unfold candidate. split.
  - intros H. apply bind_ok in H as (d & Hd & H).
    apply bind_ok in H as (p & Hp & [= <-]). by exists d.
  - intros (d & -> & Hp & Hc). simpl. rewrite Hp. simpl.
    destruct c as [label pid]. simpl in *. by subst.
Qed.

Lemma candidates_ok (predictions : list json) (cs : list (string * json)) :
  candidates predictions = Ok cs <->
  Forall2 (fun p c => candidate p = Ok c) predictions cs.
Proof.
  revert cs. induction predictions as [|p ps IH]; intros cs; simpl.
  - split; [intros [= <-]; constructor | by inversion 1].
  - rewrite bind_ok. split.
    + intros (c & Hc & H). apply bind_ok in H as (cs' & Hcs & [= <-]).
      constructor; [done | by apply IH].
    + inversion 1 as [|? c ? cs' Hc Hcs]; subst. exists c. split; [done|].
      apply IH in Hcs. by rewrite Hcs.
Qed.

Lemma nonempty_text (text : string) :
  text <> ""%string -> (0 <? String.length text)%nat = true.
Proof. by destruct text. Qed.

(** X18: for an empty text the answer is the empty list and the
    autocomplete provider is not asked; for any other text a failure of
    the provider is the failure of the lookup. *)
Theorem lookup_address_guard (session_token text : string) (err : exn) :
  lookup_address session_token "" = Ok [] /\
  (text <> ""%string ->
   places_autocomplete text session_token = Raise err ->
   lookup_address session_token text = Raise err).
Proof.
  split; [reflexivity|]. intros Htext Hp. unfold lookup_address.
  by rewrite (nonempty_text _ Htext), Hp.
Qed.

(** X19: for a text that is not empty, the candidates are the provider's
    predictions one for one and in the same order: each carries the
    [place_id] of its prediction and [str] of its [description], which for
    a description that is a str is the description itself. *)
Theorem candidates_follow_predictions (session_token text : string)
    (predictions : list json) (cs : list (string * json)) :
  text <> ""%string ->
  places_autocomplete text session_token = Ok (JArr predictions) ->
  lookup_address session_token text = Ok cs ->
  length cs = length predictions /\
  forall i p,
    predictions !! i = Some p ->
    exists label place_id description,
      cs !! i = Some (label, place_id) /\
      getitem p "place_id" = Ok place_id /\
      getitem p "description" = Ok description /\
      label = py_str description /\
      (forall s, description = JStr s -> label = s).
Proof.
  intros Htext Hp. unfold lookup_address.
  rewrite (nonempty_text _ Htext), Hp. cbn [bind iter].
  intros Hcs. apply candidates_ok in Hcs. split.
  - symmetry. by eapply Forall2_length.
  - intros i p Hi.
    destruct (Forall2_lookup_l _ _ _ _ _ Hcs Hi) as ([label pid] & Hc & Hok).
    apply candidate_ok in Hok as (d & Hd & Hpid & Hlabel). simpl in *.
    exists label, pid, d. split_and!; try done.
    intros s ->. by rewrite Hlabel, py_str_str.
Qed.

(** X20: a prediction without [description] or without [place_id] makes
    the whole lookup raise: no candidate list is returned. *)
Theorem prediction_without_key_is_fatal (session_token text : string)
    (predictions : list json) (p : gmap string json) :
  text <> ""%string ->
  places_autocomplete text session_token = Ok (JArr predictions) ->
  JObj p ∈ predictions ->
  p !! "description" = None \/ p !! "place_id" = None ->
  raises (lookup_address session_token text).
Proof.
  intros Htext Hp Hin Hmiss. apply raises_iff_not_ok. intros cs Hcs.
  unfold lookup_address in Hcs.
  rewrite (nonempty_text _ Htext), Hp in Hcs. cbn [bind iter] in Hcs.
  apply candidates_ok in Hcs.
  apply list_elem_of_lookup in Hin as [i Hi].
  destruct (Forall2_lookup_l _ _ _ _ _ Hcs Hi) as (c & _ & Hok).
  apply candidate_ok in Hok as (d & Hd & Hpid & _).
  apply getitem_ok in Hd as (? & [= <-] & Hd).
  apply getitem_ok in Hpid as (? & [= <-] & Hpid).
  destruct Hmiss; congruence.
Qed.

End LookupFacts.

Section EntryFacts.

Context {libs : Libraries} {svc : Services}.


End EntryFacts.

(** * The further properties on sample records *)

(** The place of the samples, as [show_location_insights] reads it. *)
Lemma sample_place_resolved :
  resolved_place Sample.place (JStr "Grand Hotel") (JFloat 40.75)
                 (JFloat (-73.99)).
Proof.
  unfold resolved_place. eexists _, _, _. split_and!; reflexivity.
Defined.

(** The null attendance of [bare_event] becomes 0. *)
Lemma attendance_is_zero_or_truthy_witness :
  (PHQ_Attendance Sample.bare_row = JInt 0 \/
   truthy (PHQ_Attendance Sample.bare_row) = true) /\
  PHQ_Attendance Sample.bare_row <> JNull.
Proof.
  exact (@attendance_is_zero_or_truthy Sample.libraries Sample.bare_event
           Sample.bare_row bare_event_row).
Defined.

(** A record without [category] between two good ones. *)
Lemma first_failing_record_decides_witness :
  Sample.rows (Sample.batch [Sample.full_event; Sample.without "category";
                             Sample.bare_event])
  = Raise (KeyError "category").
Proof.
  apply (@first_failing_record_decides Sample.libraries _
           [Sample.full_event] [Sample.bare_event] (Sample.without "category")).
  - reflexivity.
  - constructor; [|constructor]. exists Sample.full_row. exact full_event_row.
  - vm_compute. reflexivity.
Defined.

(** The two sample records as two batches and as one. *)
Lemma batches_concatenate_witness :
  Sample.rows (Sample.batch [Sample.full_event; Sample.bare_event])
  = Ok ([Sample.full_row] ++ [Sample.bare_row]).
Proof.
  apply (@batches_concatenate Sample.libraries
           (Sample.batch [Sample.full_event]) (Sample.batch [Sample.bare_event])
           _ [Sample.full_event] [Sample.bare_event]).
  - reflexivity.
  - reflexivity.
  - reflexivity.
  - vm_compute. reflexivity.
  - vm_compute. reflexivity.
Defined.

(** A number among the entities, after the venue. *)
Lemma entities_after_venue_ignored_witness :
  Sample.row (Sample.with_field "entities"
                (JArr [Sample.speaker; Sample.arena; JInt 3]))
  = Sample.row (Sample.with_field "entities"
                  (JArr [Sample.speaker; Sample.arena])).
Proof.
  apply (@entities_after_venue_ignored Sample.libraries Sample.full_record
           [Sample.speaker] [JInt 3] [] Sample.arena).
  - constructor; [|constructor]. exists (JStr "speaker").
    split; [reflexivity | discriminate].
  - reflexivity.
Defined.

(** An entity without [type] before the venue. *)
Lemma malformed_entity_before_venue_is_fatal_witness :
  Sample.row (Sample.with_field "entities"
                (JArr [Sample.speaker; JObj ∅; Sample.arena]))
  = Raise (KeyError "type").
Proof.
  apply (@malformed_entity_before_venue_is_fatal Sample.libraries _ ∅
           [Sample.speaker] [Sample.arena]).
  - vm_compute. reflexivity.
  - constructor; [|constructor]. exists (JStr "speaker").
    split; [reflexivity | discriminate].
  - reflexivity.
Defined.

(** The three optional text cells of [bare_event] are blank. *)
Lemma blank_cells_iff_absent_or_null_witness :
  Predicted_End_Date Sample.bare_row = ""%string /\
  Predicted_Event_Spend Sample.bare_row = ""%string /\
  Predicted_Event_Spend_Hospitality Sample.bare_row = ""%string.
Proof.
  destruct (@blank_cells_iff_absent_or_null Sample.libraries Sample.bare_record
              Sample.bare_row bare_event_row) as (Hpe & Hsp & Hho).
  split_and!.
  - apply Hpe. right. vm_compute. reflexivity.
  - apply Hsp. right. vm_compute. reflexivity.
  - apply Hho. right. exists (list_to_map [("hospitality", JNull)]).
    split; vm_compute; reflexivity.
Defined.

(** The placekey of [full_event] is copied, that of [bare_event] blank. *)
Lemma placekey_blank_or_copied_witness :
  (Placekey Sample.full_row = JStr "" \/
   exists geo, Sample.full_record !! "geo" = Some (JObj geo) /\
               geo !! "placekey" = Some (Placekey Sample.full_row)) /\
  (Placekey Sample.bare_row = JStr "" \/
   exists geo, Sample.bare_record !! "geo" = Some (JObj geo) /\
               geo !! "placekey" = Some (Placekey Sample.bare_row)).
Proof.
  split.
  - exact (@placekey_blank_or_copied Sample.libraries Sample.full_record
             Sample.full_row full_event_row).
  - exact (@placekey_blank_or_copied Sample.libraries Sample.bare_record
             Sample.bare_row bare_event_row).
Defined.


(** The predicted end of [full_event], in New York time. *)
Lemma predicted_end_uses_record_zone_witness :
  exists s z t tz dt,
    JStr "2024-06-02T04:00:00Z" = JStr s /\
    Sample.full_record !! "timezone" = Some (JStr z) /\
    @parse_date Sample.libraries s = Ok t /\
    @pytz_timezone Sample.libraries z = Ok tz /\
    wall_clock (t + tz t) dt /\
    Predicted_End_Date Sample.full_row = strftime_dby_HM dt.
Proof.
  apply (@predicted_end_uses_record_zone Sample.libraries Sample.full_record
           Sample.full_row (JStr "2024-06-02T04:00:00Z") full_event_row).
  - vm_compute. reflexivity.
  - discriminate.
Defined.

(** A start that the parser rejects. *)
Lemma library_errors_propagate_witness :
  Sample.row (Sample.with_field "start" (JStr "tomorrow")) = Raise ParserError.
Proof.
  destruct (@library_errors_propagate Sample.libraries
              (<["start" := JStr "tomorrow"]> Sample.full_record)
              [Sample.speaker; Sample.arena] Sample.arena "tomorrow"
              ParserError) as [Hparse _].
  - vm_compute. reflexivity.
  - vm_compute. reflexivity.
  - eexists. vm_compute. reflexivity.
  - eexists. vm_compute. reflexivity.
  - eexists. vm_compute. reflexivity.
  - vm_compute. reflexivity.
  - apply Hparse. vm_compute. reflexivity.
Defined.

(** The spend 1234.5 of [full_event], decoded as
    [5429388417957888 * 2^-42]. *)
Lemma spend_within_half_a_dollar_witness :
  exists n,
    Predicted_Event_Spend Sample.full_row
    = ("$" ++ sign_prefix false
       ++ string_of_list_ascii (group_thousands (digits n)))%string /\
    List.filter (fun c => negb (Ascii.eqb c ",")) (group_thousands (digits n))
    = digits n /\
    (0 <= -42 -> n = 5429388417957888 * 2 ^ (-42)) /\
    (-42 < 0 ->
     2 * Z.abs (5429388417957888 - n * 2 ^ (- -42)) <= 2 ^ (- -42)).
Proof.
  apply (@spend_within_half_a_dollar Sample.libraries Sample.full_record
           Sample.full_row 1234.5%float false 5429388417957888%positive (-42)
           full_event_row).
  - vm_compute. reflexivity.
  - vm_compute. reflexivity.
Defined.

(** The sample run on 2024-03-01. *)
Lemma calls_share_the_resolved_place_witness :
  exists out place_details lat lon,
    Sample.run (Sample.env (mkdate 2024 3 1) ∅) = Ok out /\
    @get_place_details Sample.services "place-1" "0123456789abcdef"
    = Ok place_details /\
    resolved_place place_details (header_name out) lat lon /\
    location__origin (radius_call out) = (lat, lon) /\
    (sm_lat (metrics_call out) = lat /\ sm_lon (metrics_call out) = lon) /\
    (fe_lat (events_call out) = lat /\ fe_lon (events_call out) = lon) /\
    (map_lat (map_call out) = lat /\ map_lon (map_call out) = lon).
Proof.
  destruct (Sample.run (Sample.env (mkdate 2024 3 1) ∅)) as [out|err] eqn:Hrun.
  - destruct (@calls_share_the_resolved_place Sample.libraries Sample.services
                (Sample.env (mkdate 2024 3 1) ∅) "place-1" out Hrun)
      as (pd & lat & lon & H).
    exists out, pd, lat, lon. split; [reflexivity | exact H].
  - vm_compute in Hrun. discriminate Hrun.
Defined.

Lemma advisor_answer_feeds_every_consumer_witness :
  exists out radius radius_unit,
    Sample.run (Sample.env (mkdate 2024 3 1) ∅) = Ok out /\
    @radius_search Sample.services (radius_call out) = Ok (radius, radius_unit) /\
    (sm_radius (metrics_call out) = radius /\
     sm_radius_unit (metrics_call out) = radius_unit) /\
    (fe_radius (events_call out) = radius /\
     fe_radius_unit (events_call out) = radius_unit) /\
    map_radius_meters (map_call out) = calc_meters radius radius_unit.
Proof.
  destruct (Sample.run (Sample.env (mkdate 2024 3 1) ∅)) as [out|err] eqn:Hrun.
  - destruct (@advisor_answer_feeds_every_consumer Sample.libraries
                Sample.services (Sample.env (mkdate 2024 3 1) ∅) "place-1" out
                Hrun) as (radius & radius_unit & H).
    exists out, radius, radius_unit. split; [reflexivity | exact H].
  - vm_compute in Hrun. discriminate Hrun.
Defined.

Lemma table_and_map_show_fetched_events_witness :
  exists out,
    Sample.run (Sample.env (mkdate 2024 3 1) ∅) = Ok out /\
    fe_categories (events_call out) = @ATTENDED_CATEGORIES Sample.services /\
    @fetch_events Sample.services (events_call out)
    = Ok (map_events (map_call out)) /\
    Sample.rows (map_events (map_call out)) = Ok (events_table out).
Proof.
  destruct (Sample.run (Sample.env (mkdate 2024 3 1) ∅)) as [out|err] eqn:Hrun.
  - exists out. split; [reflexivity|].
    exact (@table_and_map_show_fetched_events Sample.libraries Sample.services
             (Sample.env (mkdate 2024 3 1) ∅) "place-1" out Hrun).
  - vm_compute in Hrun. discriminate Hrun.
Defined.


(** The place lookup down. *)
Lemma place_errors_are_fatal_witness :
  @show_location_insights Sample.libraries Sample.place_down
    (Sample.env (mkdate 2024 3 1) ∅) "place-1"
  = Raise ValueError.
Proof.
  destruct (@place_errors_are_fatal Sample.libraries Sample.place_down
              (Sample.env (mkdate 2024 3 1) ∅) "place-1") as [Hdown _].
  apply Hdown. reflexivity.
Defined.

(** A run on 9999-12-01. *)
Lemma window_needs_ninety_days_of_calendar_witness :
  Sample.run (Sample.env (mkdate 9999 12 1) ∅) = Raise OverflowError.
Proof.
  apply (@window_needs_ninety_days_of_calendar Sample.libraries Sample.services
           (Sample.env (mkdate 9999 12 1) ∅) "place-1" Sample.place
           (JStr "Grand Hotel") (JFloat 40.75) (JFloat (-73.99))).
  - reflexivity.
  - exact sample_place_resolved.
  - vm_compute. reflexivity.
Defined.

(** A provider that fails, asked for a text that is not empty. *)
Lemma lookup_address_guard_witness :
  @lookup_address (Sample.places_for (Raise ValueError)) "token" ""
  = Ok [] /\
  @lookup_address (Sample.places_for (Raise ValueError)) "token" "1 Main"
  = Raise ValueError.
Proof.
  destruct (@lookup_address_guard (Sample.places_for (Raise ValueError))
              "token" "1 Main" ValueError) as [Hempty Hfail].
  split; [exact Hempty|]. apply Hfail; [discriminate | reflexivity].
Defined.

(** Two predictions, two candidates. *)
Lemma candidates_follow_predictions_witness :
  let cs := [("1 Main St, Anytown, USA"%string, JStr "place-1");
             ("1 Main Rd, Othertown, USA"%string, JStr "place-2")] in
  length cs = length Sample.predictions /\
  forall i p,
    Sample.predictions !! i = Some p ->
    exists label place_id description,
      cs !! i = Some (label, place_id) /\
      getitem p "place_id" = Ok place_id /\
      getitem p "description" = Ok description /\
      label = Sample.str_of description /\
      (forall s, description = JStr s -> label = s).
Proof.
  apply (@candidates_follow_predictions
           (Sample.places_for (Ok (JArr Sample.predictions))) "token" "1 Main").
  - discriminate.
  - reflexivity.
  - vm_compute. reflexivity.
Defined.

(** A prediction without [place_id] after a complete one. *)
Lemma prediction_without_key_is_fatal_witness :
  raises (@lookup_address
            (Sample.places_for
               (Ok (JArr (Sample.predictions ++ [Sample.cut_prediction]))))
            "token" "1 Main").
Proof.
  apply (@prediction_without_key_is_fatal
           (Sample.places_for
              (Ok (JArr (Sample.predictions ++ [Sample.cut_prediction]))))
           "token" "1 Main"
           (Sample.predictions ++ [Sample.cut_prediction])
           (list_to_map [("description", JStr "1 Main")])).
  - discriminate.
  - reflexivity.
  - right. right. left.
  - right. vm_compute. reflexivity.
Defined.

